(** * Kitchen scene generation for the Stretch robot

    A shallow embedding of [stretch_mujoco/robocasa_gen.py]: the option
    selector [choose_option], the generation wizard
    [model_generation_wizard], the cleanup stage [custom_cleanups], the
    robot insertion [add_stretch_to_kitchen] and the command line entry
    [main].

    Everything the file reaches outside itself (builtins [input] and [int],
    [np.random.choice], [robosuite.make], [mujoco.MjModel.from_xml_string],
    the output file, and the tag editor of [stretch_mujoco.utils]) is a
    call node of a program tree; a run is a list of calls with the reply
    each one got.  Console output ([print], [click.secho]) is not part of
    the model; an expression that is evaluated only to be printed is kept
    where it can raise. *)

From Stdlib Require Import List String Ascii ZArith Lia Bool DecimalString
  DecimalPos DecimalZ Sorted Permutation.
Import ListNotations.
Local Open Scope string_scope.
Local Open Scope list_scope.
Set Warnings "-register-all".

(** ** Python values and exceptions *)

(** The values that flow through [choose_option]: [None], integers and
    strings. *)
Inductive pyval : Type :=
| PNone
| PInt (z : Z)
| PStr (s : string).

Definition pyval_eqb (a b : pyval) : bool :=
  match a, b with
  | PNone, PNone => true
  | PInt x, PInt y => Z.eqb x y
  | PStr x, PStr y => String.eqb x y
  | _, _ => false
  end.

Definition is_none (v : pyval) : bool :=
  match v with PNone => true | _ => false end.

(** [str(v)] *)
Definition py_str (v : pyval) : string :=
  match v with
  | PNone => "None"
  | PInt z => NilZero.string_of_int (Z.to_int z)
  | PStr s => s
  end.

(** Subclasses of [Exception]; [LookupError] is the tag editor's
    element-not-found or multiple-match failure, [External] any failure of a
    collaborator. *)
Inductive exn : Type :=
| KeyError
| IndexError
| ValueError
| EOFError
| LookupError (tag name : string)
| External (what : string).

Inductive result (A : Type) : Type :=
| Ok (a : A)
| Err (e : exn).
Arguments Ok {A} a.
Arguments Err {A} e.

(** ** Dictionaries in insertion order *)

Section Dict.
Context {K V : Type} (eqb : K -> K -> bool).

Fixpoint dict_get (d : list (K * V)) (k : K) : option V :=
  match d with
  | [] => None
  | (k', v) :: d' => if eqb k' k then Some v else dict_get d' k
  end.

(** [d[k] = v]: an existing key keeps its place, a new one goes last. *)
Fixpoint dict_set (d : list (K * V)) (k : K) (v : V) : list (K * V) :=
  match d with
  | [] => [(k, v)]
  | (k', v') :: d' =>
      if eqb k' k then (k', v) :: d' else (k', v') :: dict_set d' k v
  end.

Definition dict_keys (d : list (K * V)) : list K := map fst d.
End Dict.

Definition odict : Type := list (pyval * pyval).
Definition attrib : Type := list (string * string).

(** [len(x)] as a Python integer *)
Definition len {A : Type} (l : list A) : Z := Z.of_nat (List.length l).

(** [l[k]] on a list: a negative index counts from the end. *)
Definition list_index {A : Type} (l : list A) (k : Z) : option A :=
  if (0 <=? k)%Z then nth_error l (Z.to_nat k)
  else if (- len l <=? k)%Z then nth_error l (Z.to_nat (len l + k))
  else None.

(** [range(n)] *)
Definition range (n : nat) : list Z := map Z.of_nat (seq 0 n).

(** ** The scene document *)

(** The buffer is held as the element tree it describes; [Raw] is a line of
    markup spliced in as text. *)
Inductive node : Type :=
| Elem (tag : string) (attrs : attrib) (children : list node)
| Raw (text : string).

Definition dquote : string := String (ascii_of_nat 34) EmptyString.

Definition attr_text (kv : string * string) : string :=
  String.append " "
    (String.append (fst kv)
       (String.append "=" (String.append dquote (String.append (snd kv) dquote)))).

Fixpoint tostring (xml : node) : string :=
  match xml with
  | Elem t a cs =>
      String.append "<"
        (String.append t
           (String.append (String.concat "" (map attr_text a))
              match cs with
              | [] => " />"
              | _ =>
                  String.append ">"
                    (String.append (String.concat "" (map tostring cs))
                       (String.append "</" (String.append t ">")))
              end))
  | Raw s => s
  end.

(** A test on an element looks at its tag and attributes only. *)
Definition pred : Type := string -> attrib -> bool.

Definition on_elem (p : pred) (n : node) : bool :=
  match n with
  | Elem t a _ => p t a
  | Raw _ => false
  end.

Definition has_tag (tag : string) : pred :=
  fun t _ => String.eqb t tag.

Definition attr_is (a : attrib) (k v : string) : bool :=
  match dict_get String.eqb a k with
  | Some v' => String.eqb v' v
  | None => false
  end.

Definition named (tag name : string) : pred :=
  fun t a => String.eqb t tag && attr_is a "name" name.

Definition carries (tag attribute value : string) : pred :=
  fun t a =>
    String.eqb t tag
    && existsb (fun kv => String.eqb (fst kv) attribute && String.eqb (snd kv) value) a.

(** Every element satisfying [p], the root included, in document order. *)
Fixpoint select (p : pred) (xml : node) : list node :=
  match xml with
  | Elem t a cs =>
      (if p t a then [xml] else []) ++ flat_map (select p) cs
  | Raw _ => []
  end.

(** The same below the root. *)
Definition select_sub (p : pred) (xml : node) : list node :=
  match xml with
  | Elem _ _ cs => flat_map (select p) cs
  | Raw _ => []
  end.

Definition node_attrs (n : node) : attrib :=
  match n with
  | Elem _ a _ => a
  | Raw _ => []
  end.

(** Drop every element below the root that satisfies [p], with its subtree. *)
Fixpoint prune (p : pred) (xml : node) : node :=
  match xml with
  | Elem t a cs =>
      Elem t a
        ((fix go (l : list node) : list node :=
            match l with
            | [] => []
            | c :: l' => if on_elem p c then go l' else prune p c :: go l'
            end) cs)
  | Raw s => Raw s
  end.

(** Apply [f] to the attributes of every element satisfying [p]. *)
Fixpoint rewrite (p : pred) (f : attrib -> attrib) (xml : node) : node :=
  match xml with
  | Elem t a cs =>
      Elem t (if p t a then f a else a) (map (rewrite p f) cs)
  | Raw s => Raw s
  end.

(** The spliced line goes first among the children of the first element, in
    document order, with the anchor tag. *)
Fixpoint splice (anchor line : string) (xml : node) : option node :=
  match xml with
  | Elem t a cs =>
      if String.eqb t anchor then Some (Elem t a (Raw line :: cs))
      else
        match
          (fix go (l : list node) : option (list node) :=
             match l with
             | [] => None
             | c :: l' =>
                 match splice anchor line c with
                 | Some c' => Some (c' :: l')
                 | None =>
                     match go l' with
                     | Some l'' => Some (c :: l'')
                     | None => None
                     end
                 end
             end) cs
        with
        | Some cs' => Some (Elem t a cs')
        | None => None
        end
  | Raw _ => None
  end.

(** ** The tag editor of [stretch_mujoco.utils] *)

Module StretchUtils.

Definition replace_value (attribute pattern replacement : string)
    (a : attrib) : attrib :=
  map (fun kv =>
         if String.eqb (fst kv) attribute && String.eqb (snd kv) pattern
         then (fst kv, replacement) else kv) a.

(** Modelled from the spec: [replace_xml_tag_value] of
    [stretch_mujoco/utils.py], which is not among the sources.  Section 4.2
    (1): on every element with the tag, an occurrence of the attribute
    whose value is exactly the old value gets the new value; every other
    occurrence stays. *)
Definition replace_xml_tag_value (xml : node)
    (tag attribute pattern replacement : string) : node :=
  rewrite (has_tag tag) (replace_value attribute pattern replacement) xml.

(** Modelled from the spec: [xml_remove_subelement] of
    [stretch_mujoco/utils.py].  Section 4.2 (2): every element whose tag
    matches goes, with its subtree, anywhere in the document; the root
    element, which is the document, stays. *)
Definition xml_remove_subelement (xml : node) (subelement : string) : node :=
  prune (has_tag subelement) xml.

Definition pose_attrib (a : attrib) : attrib :=
  filter (fun kv => String.eqb (fst kv) "pos" || String.eqb (fst kv) "quat") a.

(** Modelled from the spec: [xml_remove_tag_by_name] of
    [stretch_mujoco/utils.py].  Section 4.2 (3) and section 7: the single
    element below the root with the tag and the name goes, and the [pos] and
    [quat] attributes it carried come back with the document; no such
    element, or more than one, is an error. *)
Definition xml_remove_tag_by_name (xml : node) (tag name : string)
    : result (node * attrib) :=
  match select_sub (named tag name) xml with
  | [e] => Ok (prune (named tag name) xml, pose_attrib (node_attrs e))
  | _ => Err (LookupError tag name)
  end.

Definition set_pose (pos quat : string) (a : attrib) : attrib :=
  dict_set String.eqb (dict_set String.eqb a "pos" pos) "quat" quat.

(** Modelled from the spec: [xml_modify_body_pos] of
    [stretch_mujoco/utils.py].  Section 4.2 (4) and section 7: the [pos]
    and [quat] of the element with the tag and the name are set to the
    given values; it must be the only such element. *)
Definition xml_modify_body_pos (xml : node) (tag name pos quat : string)
    : result node :=
  match select (named tag name) xml with
  | [_] => Ok (rewrite (named tag name) (set_pose pos quat) xml)
  | _ => Err (LookupError tag name)
  end.

(** Modelled from the spec: [insert_line_after_mujoco_tag] of
    [stretch_mujoco/utils.py].  Section 4.2 (5): the line goes right after
    the first opening [mujoco] tag; the operation always returns a
    buffer. *)
Definition insert_line_after_mujoco_tag (xml : node) (line : string) : node :=
  match splice "mujoco" line xml with
  | Some xml' => xml'
  | None => xml
  end.

End StretchUtils.

(** ** Collaborators *)

(** A loaded [mujoco.MjModel]. *)
Inductive MjModel : Type :=
| mj_model (handle : nat).

(** An entry of [env.object_cfgs]: [cfg["name"]] and [cfg["info"]["cat"]]. *)
Record obj_cfg : Type := {
  cfg_name : string;
  cfg_cat : string
}.

(** What the wizard reads from the environment [robosuite.make] returns:
    [env.sim.model._model], [env.sim.model.get_xml()], [env.object_cfgs] and
    [env.object_placements] (position and quaternion per object name, in the
    text form they take as attributes). *)
Record KitchenEnv : Type := {
  sim_model : MjModel;
  sim_xml : node;
  object_cfgs : list obj_cfg;
  object_placements : list (string * (string * string))
}.

(** A value of [object_placements_info]. *)
Record placement : Type := {
  p_cat : string;
  p_pos : string;
  p_quat : string
}.

Definition registry : Type := list (string * placement).

(** A value of [output] in [main]. *)
Record scene_object : Type := {
  o_id : Z;
  o_key : string;
  o_name : string;
  o_position : string
}.

(** ** Calls, replies and programs *)

(** What the file calls outside itself:
    - [Input], [Int]: the builtins [input(prompt)] and [int(s)];
    - [RandomChoice]: [np.random.choice] on a range;
    - [RobosuiteMake]: the configuration of lines 139 to 145 (with
      [load_controller_config]) handed to [robosuite.make], and the reads of
      the environment it returns;
    - [ReplaceXmlTagValue] to [GetAbsolutePathStretchXml]: the functions
      imported from [stretch_mujoco.utils];
    - [FromXmlString]: [mujoco.MjModel.from_xml_string];
    - [WriteFile]: [open(path, "w")] and the write of the whole document;
    - [UntidyBot]: the end of [main], from [json.dumps] to
      [UntidyBotSimulator(...).start()]. *)
Inductive call : Type :=
| Input (prompt : string)
| Int (s : string)
| RandomChoice (a : list Z)
| RobosuiteMake (env_name : string) (layout style : pyval)
| ReplaceXmlTagValue (xml : node) (tag attribute pattern replacement : string)
| XmlRemoveSubelement (xml : node) (subelement : string)
| XmlRemoveTagByName (xml : node) (tag name : string)
| XmlModifyBodyPos (xml : node) (tag name pos quat : string)
| InsertLineAfterMujocoTag (xml : node) (line : string)
| GetAbsolutePathStretchXml (pose : attrib)
| FromXmlString (xml : node)
| WriteFile (path : string) (content : node)
| UntidyBot (instruction : string) (model : MjModel)
    (objects : list (string * scene_object)).

(** A reply is a value or an exception, but for the random draw. *)
Inductive reply : Type :=
| RStr (r : result string)
| RInt (r : result Z)
| RChoice (z : Z)
| REnv (r : result KitchenEnv)
| RDoc (r : result node)
| RCut (r : result (node * attrib))
| RModel (r : result MjModel)
| RUnit (r : result unit).

Definition ret_ty (c : call) : Type :=
  match c with
  | Input _ => result string
  | Int _ => result Z
  | RandomChoice _ => Z
  | RobosuiteMake _ _ _ => result KitchenEnv
  | ReplaceXmlTagValue _ _ _ _ _ => result node
  | XmlRemoveSubelement _ _ => result node
  | XmlRemoveTagByName _ _ _ => result (node * attrib)
  | XmlModifyBodyPos _ _ _ _ _ => result node
  | InsertLineAfterMujocoTag _ _ => result node
  | GetAbsolutePathStretchXml _ => result string
  | FromXmlString _ => result MjModel
  | WriteFile _ _ => result unit
  | UntidyBot _ _ _ => result unit
  end.

Definition reply_of (c : call) : ret_ty c -> reply :=
  match c return ret_ty c -> reply with
  | Input _ => RStr
  | Int _ => RInt
  | RandomChoice _ => RChoice
  | RobosuiteMake _ _ _ => REnv
  | ReplaceXmlTagValue _ _ _ _ _ => RDoc
  | XmlRemoveSubelement _ _ => RDoc
  | XmlRemoveTagByName _ _ _ => RCut
  | XmlModifyBodyPos _ _ _ _ _ => RDoc
  | InsertLineAfterMujocoTag _ _ => RDoc
  | GetAbsolutePathStretchXml _ => RStr
  | FromXmlString _ => RModel
  | WriteFile _ _ => RUnit
  | UntidyBot _ _ _ => RUnit
  end.

(** A program returns, raises, or makes a call and goes on with its reply. *)
Inductive prog (A : Type) : Type :=
| Ret (a : A)
| Raise (e : exn)
| Vis (c : call) (k : ret_ty c -> prog A).
Arguments Ret {A} a.
Arguments Raise {A} e.
Arguments Vis {A} c k.

Fixpoint bind {A B : Type} (m : prog A) (f : A -> prog B) : prog B :=
  match m with
  | Ret a => f a
  | Raise e => Raise e
  | Vis c k => Vis c (fun x => bind (k x) f)
  end.

Notation "x <- m ;; k" := (bind m (fun x => k))
  (at level 61, m at next level, right associativity).
Notation "' pat <- m ;; k" := (bind m (fun x => match x with pat => k end))
  (at level 61, pat pattern, m at next level, right associativity).

(** [try: body  except Exception: handler] *)
Fixpoint try_except {A : Type} (body : prog A) (handler : exn -> prog A)
    : prog A :=
  match body with
  | Ret a => Ret a
  | Raise e => handler e
  | Vis c k => Vis c (fun x => try_except (k x) handler)
  end.

Definition of_result {A : Type} (r : result A) : prog A :=
  match r with
  | Ok a => Ret a
  | Err e => Raise e
  end.

(** [d[k]], raising [KeyError] *)
Definition getitem {K V : Type} (eqb : K -> K -> bool) (d : list (K * V))
    (k : K) : prog V :=
  match dict_get eqb d k with
  | Some v => Ret v
  | None => Raise KeyError
  end.

(** [l[k]], raising [IndexError] *)
Definition getindex {A : Type} (l : list A) (k : Z) : prog A :=
  match list_index l k with
  | Some a => Ret a
  | None => Raise IndexError
  end.

Definition input (prompt : string) : prog string :=
  Vis (Input prompt) of_result.
Definition int (s : string) : prog Z :=
  Vis (Int s) of_result.
Definition np_random_choice (a : list Z) : prog Z :=
  Vis (RandomChoice a) Ret.
Definition robosuite_make (env_name : string) (layout style : pyval)
    : prog KitchenEnv :=
  Vis (RobosuiteMake env_name layout style) of_result.
Definition replace_xml_tag_value (xml : node)
    (tag attribute pattern replacement : string) : prog node :=
  Vis (ReplaceXmlTagValue xml tag attribute pattern replacement) of_result.
Definition xml_remove_subelement (xml : node) (subelement : string)
    : prog node :=
  Vis (XmlRemoveSubelement xml subelement) of_result.
Definition xml_remove_tag_by_name (xml : node) (tag name : string)
    : prog (node * attrib) :=
  Vis (XmlRemoveTagByName xml tag name) of_result.
Definition xml_modify_body_pos (xml : node) (tag name pos quat : string)
    : prog node :=
  Vis (XmlModifyBodyPos xml tag name pos quat) of_result.
Definition insert_line_after_mujoco_tag (xml : node) (line : string)
    : prog node :=
  Vis (InsertLineAfterMujocoTag xml line) of_result.
Definition get_absolute_path_stretch_xml (pose : attrib) : prog string :=
  Vis (GetAbsolutePathStretchXml pose) of_result.
Definition from_xml_string (xml : node) : prog MjModel :=
  Vis (FromXmlString xml) of_result.
Definition write_file (path : string) (content : node) : prog unit :=
  Vis (WriteFile path content) of_result.
Definition untidybot (instruction : string) (model : MjModel)
    (objects : list (string * scene_object)) : prog unit :=
  Vis (UntidyBot instruction model objects) of_result.

(** ** Runs *)

Definition event : Type := call * reply.
Definition trace : Type := list event.

(** [runs p t r]: [p] can make the calls of [t], get the replies of [t], and
    end with [r]. *)
Fixpoint runs {A : Type} (p : prog A) (t : trace) (r : result A) : Prop :=
  match p with
  | Ret a => t = [] /\ r = Ok a
  | Raise e => t = [] /\ r = Err e
  | Vis c k => exists x t', t = (c, reply_of c x) :: t' /\ runs (k x) t' r
  end.

(** One reply per call. *)
Definition oracle : Type := forall c : call, ret_ty c.

Fixpoint exec {A : Type} (o : oracle) (p : prog A) : trace * result A :=
  match p with
  | Ret a => ([], Ok a)
  | Raise e => ([], Err e)
  | Vis c k =>
      let (t, r) := exec o (k (o c)) in ((c, reply_of c (o c)) :: t, r)
  end.

(** The replies of the tag editor. *)
Definition utils_impl (c : call) : option (ret_ty c) :=
  match c return option (ret_ty c) with
  | ReplaceXmlTagValue xml tag attribute pattern replacement =>
      Some (Ok (StretchUtils.replace_xml_tag_value xml tag attribute pattern
                  replacement))
  | XmlRemoveSubelement xml subelement =>
      Some (Ok (StretchUtils.xml_remove_subelement xml subelement))
  | XmlRemoveTagByName xml tag name =>
      Some (StretchUtils.xml_remove_tag_by_name xml tag name)
  | XmlModifyBodyPos xml tag name pos quat =>
      Some (StretchUtils.xml_modify_body_pos xml tag name pos quat)
  | InsertLineAfterMujocoTag xml line =>
      Some (Ok (StretchUtils.insert_line_after_mujoco_tag xml line))
  | _ => None
  end.

Definition obeys (h : forall c, option (ret_ty c)) (ev : event) : Prop :=
  match h (fst ev) with
  | Some x => snd ev = reply_of (fst ev) x
  | None => True
  end.

(** In [t] the tag editor answered as [StretchUtils] does. *)
Definition utils_ok (t : trace) : Prop := Forall (obeys utils_impl) t.

Definition with_utils (o : oracle) : oracle :=
  fun c => match utils_impl c with Some x => x | None => o c end.

(** [p] with the calls [h] answers carried out. *)
Fixpoint denote {A : Type} (h : forall c, option (ret_ty c)) (p : prog A)
    : prog A :=
  match p with
  | Ret a => Ret a
  | Raise e => Raise e
  | Vis c k =>
      match h c with
      | Some x => denote h (k x)
      | None => Vis c (fun x => denote h (k x))
      end
  end.

Definition answered (h : forall c, option (ret_ty c)) (ev : event) : bool :=
  match h (fst ev) with Some _ => true | None => false end.

(** ** The option selector *)

Definition prompt_text (last : Z) (default_message : pyval) : string :=
  String.append "Choose an option 0 to "
    (String.append (py_str (PInt last))
       (String.append ", or any other key for default ("
          (String.append (py_str default_message) "): "))).

(** [choose_option(options, option_name, show_keys, default,
    default_message)]; an argument left out is [PNone]. *)
Definition choose_option (options : odict) (option_name : string)
    (show_keys : bool) (default default_message : pyval) : prog pyval :=
  default <- (if is_none default
              then getitem pyval_eqb options (PInt 0)
              else Ret default) ;;
  let default_message :=
    if is_none default_message then default else default_message in
  try_except
    (s <- input (prompt_text (len options - 1) default_message) ;;
     n <- int s ;;
     let k := Z.min (Z.max n 0) (len options - 1) in
     getindex (dict_keys options) k)
    (fun _ =>
       if is_none default
       then getitem pyval_eqb options (PInt 0)
       else Ret default).

(** ** Cleanup and robot insertion *)

Definition custom_cleanups (xml : node) : prog (node * attrib) :=
  xml <- replace_xml_tag_value xml "geom" "rgba" "0.5 0 0 0.5" "0.5 0 0 0" ;;
  xml <- replace_xml_tag_value xml "geom" "rgba" "0.5 0 0 1" "0.5 0 0 0" ;;
  xml <- replace_xml_tag_value xml "site" "rgba" "0.5 0 0 1" "0.5 0 0 0" ;;
  xml <- replace_xml_tag_value xml "site" "actuator" "0.3 0.4 1 0.5"
           "0.3 0.4 1 0" ;;
  xml <- xml_remove_subelement xml "actuator" ;;
  xml <- xml_remove_subelement xml "sensor" ;;
  xml <- xml_remove_subelement xml "option" ;;
  '(xml, remove_robot_attrib) <-
     xml_remove_tag_by_name xml "body" "robot0_base" ;;
  Ret (xml, remove_robot_attrib).

(** The line [f' <include file="{stretch_xml_absolute}"/>']. *)
Definition include_line (stretch_xml_absolute : string) : string :=
  String.append " <include file="
    (String.append dquote
       (String.append stretch_xml_absolute (String.append dquote "/>"))).

Definition add_stretch_to_kitchen (xml : node) (robot_pose_attrib : attrib)
    : prog node :=
  _ <- getitem String.eqb robot_pose_attrib "pos" ;;
  _ <- getitem String.eqb robot_pose_attrib "quat" ;;
  stretch_xml_absolute <- get_absolute_path_stretch_xml robot_pose_attrib ;;
  insert_line_after_mujoco_tag xml (include_line stretch_xml_absolute).

(** ** The generation wizard *)

Definition layouts : odict :=
  [ (PInt 0, PStr "One wall");
    (PInt 1, PStr "One wall w/ island");
    (PInt 2, PStr "L-shaped");
    (PInt 3, PStr "L-shaped w/ island");
    (PInt 4, PStr "Galley");
    (PInt 5, PStr "U-shaped");
    (PInt 6, PStr "U-shaped w/ island");
    (PInt 7, PStr "G-shaped");
    (PInt 8, PStr "G-shaped (large)");
    (PInt 9, PStr "Wraparound") ].

Fixpoint insert_key (k : Z) (l : list Z) : list Z :=
  match l with
  | [] => [k]
  | x :: l' => if (k <=? x)%Z then k :: l else x :: insert_key k l'
  end.

(** [sorted(keys)] *)
Definition sorted (keys : list Z) : list Z := fold_right insert_key [] keys.

Definition upper (c : ascii) : ascii :=
  let n := nat_of_ascii c in
  if (97 <=? n)%nat && (n <=? 122)%nat then ascii_of_nat (n - 32) else c.

Definition lower (c : ascii) : ascii :=
  let n := nat_of_ascii c in
  if (65 <=? n)%nat && (n <=? 90)%nat then ascii_of_nat (n + 32) else c.

Fixpoint lowercase (s : string) : string :=
  match s with
  | EmptyString => EmptyString
  | String c s' => String (lower c) (lowercase s')
  end.

(** [s.capitalize()] for text in ASCII: the first letter in upper case, the
    rest in lower case.  Bytes outside ASCII are left as they are, where
    Python maps the case of every code point: a name with such letters is
    outside this model.  Only the labels of the styles go through it, and
    the selector and the wizard look at the keys alone. *)
Definition capitalize (s : string) : string :=
  match s with
  | EmptyString => EmptyString
  | String c s' => String (upper c) (lowercase s')
  end.

(** The loop of lines 176 to 195 over [env.object_cfgs]: the placement is
    looked up, written into the body [obj_name + "_main"], and recorded. *)
Fixpoint place_objects (object_placements : list (string * (string * string)))
    (cfgs : list obj_cfg) (xml : node) (object_placements_info : registry)
    : prog (node * registry) :=
  match cfgs with
  | [] => Ret (xml, object_placements_info)
  | cfg :: rest =>
      let obj_name := cfg_name cfg in
      let category := cfg_cat cfg in
      pq <- getitem String.eqb object_placements obj_name ;;
      xml <- xml_modify_body_pos xml "body" (String.append obj_name "_main")
               (fst pq) (snd pq) ;;
      place_objects object_placements rest xml
        (dict_set String.eqb object_placements_info
           (String.append obj_name "_main")
           {| p_cat := category; p_pos := fst pq; p_quat := snd pq |})
  end.

Section Wizard.

(** [STYLES] of [robocasa.models.arenas.layout_builder]: style id to name. *)
Variable STYLES : list (Z * string).

Definition styles : odict :=
  fold_left
    (fun acc k =>
       match dict_get Z.eqb STYLES k with
       | Some v => dict_set pyval_eqb acc (PInt k) (PStr (capitalize v))
       | None => acc
       end)
    (sorted (dict_keys STYLES)) [].

Definition model_generation_wizard (task : string) (layout style : pyval)
    (write_to_file : option string) (robot_spawn_pose : option attrib)
    : prog (MjModel * node * registry) :=
  layout <- (if is_none layout
             then choose_option layouts "kitchen layout" false (PInt (-1))
                    (PStr "random layouts")
             else Ret layout) ;;
  style <- (if is_none style
            then choose_option styles "kitchen style" false (PInt (-1))
                   (PStr "random styles")
            else Ret style) ;;
  layout <- (if pyval_eqb layout (PInt (-1))
             then z <- np_random_choice (range 10) ;; Ret (PInt z)
             else Ret layout) ;;
  style <- (if pyval_eqb style (PInt (-1))
            then z <- np_random_choice (range 11) ;; Ret (PInt z)
            else Ret style) ;;
  env <- robosuite_make task layout style ;;
  _ <- getitem pyval_eqb layouts layout ;;
  _ <- getitem pyval_eqb styles style ;;
  let model := sim_model env in
  let xml := sim_xml env in
  '(xml, object_placements_info) <-
     place_objects (object_placements env) (object_cfgs env) xml [] ;;
  '(xml, robot_base_fixture_pose) <- custom_cleanups xml ;;
  let robot_base_fixture_pose :=
    match robot_spawn_pose with
    | Some pose => pose
    | None => robot_base_fixture_pose
    end in
  xml <- add_stretch_to_kitchen xml robot_base_fixture_pose ;;
  model <- from_xml_string xml ;;
  _ <- match write_to_file with
       | Some path => write_file path xml
       | None => Ret tt
       end ;;
  Ret (model, xml, object_placements_info).

(** ** The command line entry *)

Definition cli_spawn_pose : attrib :=
  [("pos", "2.26 -1.43 0.0"); ("quat", "0 0 0 1")].

Fixpoint scene_objects (i : Z) (objects_info : registry)
    (output : list (string * scene_object)) : list (string * scene_object) :=
  match objects_info with
  | [] => output
  | (key, obj) :: rest =>
      scene_objects (i + 1) rest
        (dict_set String.eqb output
           (String.append "object_" (py_str (PInt (i + 1))))
           {| o_id := i; o_key := key; o_name := p_cat obj;
              o_position := p_pos obj |})
  end.

Definition main (task : string) (layout style : pyval)
    (write_to_file : option string) : prog unit :=
  '(model, xml, objects_info) <-
     model_generation_wizard task layout style write_to_file
       (Some cli_spawn_pose) ;;
  let output := scene_objects 0 objects_info [] in
  instruction <- input "Please enter your instruction or string: " ;;
  untidybot instruction model output.

End Wizard.

(** ** Views of the wizard used by the proofs *)

(** Lines 197 to 212 of the wizard. *)
Definition assemble_and_save (xml : node) (object_placements_info : registry)
    (write_to_file : option string) (robot_spawn_pose : option attrib)
    : prog (MjModel * node * registry) :=
  '(xml, robot_base_fixture_pose) <- custom_cleanups xml ;;
  let robot_base_fixture_pose :=
    match robot_spawn_pose with
    | Some pose => pose
    | None => robot_base_fixture_pose
    end in
  xml <- add_stretch_to_kitchen xml robot_base_fixture_pose ;;
  model <- from_xml_string xml ;;
  _ <- match write_to_file with
       | Some path => write_file path xml
       | None => Ret tt
       end ;;
  Ret (model, xml, object_placements_info).

(** Lines 137 to 212 of the wizard, for the ids resolved above them. *)
Definition scene (STYLES : list (Z * string)) (task : string)
    (layout style : pyval) (write_to_file : option string)
    (robot_spawn_pose : option attrib) : prog (MjModel * node * registry) :=
  env <- robosuite_make task layout style ;;
  _ <- getitem pyval_eqb layouts layout ;;
  _ <- getitem pyval_eqb (styles STYLES) style ;;
  '(xml, object_placements_info) <-
     place_objects (object_placements env) (object_cfgs env) (sim_xml env) [] ;;
  assemble_and_save xml object_placements_info write_to_file robot_spawn_pose.

(** ** Observations on traces *)

(** The calls of the selection and randomizing states. *)
Definition picking (ev : event) : bool :=
  match fst ev with
  | Input _ | Int _ | RandomChoice _ => true
  | _ => false
  end.

(** The calls that instantiate the environment and place its objects. *)
Definition staging (ev : event) : bool :=
  match fst ev with
  | RobosuiteMake _ _ _ => true
  | XmlModifyBodyPos _ tag _ _ _ => String.eqb tag "body"
  | _ => false
  end.

(** An edit of the document, without the document. *)
Inductive edit : Type :=
| EPlace (tag name : string)
| EReplace (tag attribute pattern replacement : string)
| ERemoveSub (subelement : string)
| ERemoveNamed (tag name : string)
| EInsert (line : string).

Definition edit_of (ev : event) : option edit :=
  match fst ev with
  | XmlModifyBodyPos _ tag name _ _ => Some (EPlace tag name)
  | ReplaceXmlTagValue _ tag attribute pattern replacement =>
      Some (EReplace tag attribute pattern replacement)
  | XmlRemoveSubelement _ subelement => Some (ERemoveSub subelement)
  | XmlRemoveTagByName _ tag name => Some (ERemoveNamed tag name)
  | InsertLineAfterMujocoTag _ line => Some (EInsert line)
  | _ => None
  end.

Fixpoint edits (t : trace) : list edit :=
  match t with
  | [] => []
  | ev :: t' =>
      match edit_of ev with
      | Some e => e :: edits t'
      | None => edits t'
      end
  end.

Definition is_write (ev : event) : bool :=
  match fst ev with
  | WriteFile _ _ => true
  | _ => false
  end.

Definition writes (t : trace) : trace := filter is_write t.

(** The reply is a value, not an exception. *)
Definition succeeded (ev : event) : bool :=
  match snd ev with
  | RStr (Ok _) | RInt (Ok _) | RChoice _ | REnv (Ok _) | RDoc (Ok _)
  | RCut (Ok _) | RModel (Ok _) | RUnit (Ok _) => true
  | _ => false
  end.

(** The edits of [custom_cleanups], in the order of its lines. *)
Definition cleanup_edits : list edit :=
  [ EReplace "geom" "rgba" "0.5 0 0 0.5" "0.5 0 0 0";
    EReplace "geom" "rgba" "0.5 0 0 1" "0.5 0 0 0";
    EReplace "site" "rgba" "0.5 0 0 1" "0.5 0 0 0";
    EReplace "site" "actuator" "0.3 0.4 1 0.5" "0.3 0.4 1 0";
    ERemoveSub "actuator";
    ERemoveSub "sensor";
    ERemoveSub "option";
    ERemoveNamed "body" "robot0_base" ].

Definition is_insert (e : edit) : bool :=
  match e with
  | EInsert _ => true
  | _ => false
  end.

(** A call before the write went well: it returned a value, or it is a
    prompt or parse whose failure the selector recovers from. *)
Definition stage_ok (ev : event) : bool := picking ev || succeeded ev.

(** The poses asked of [get_absolute_path_stretch_xml]. *)
Fixpoint spawn_poses (t : trace) : list attrib :=
  match t with
  | [] => []
  | (GetAbsolutePathStretchXml pose, _) :: t' => pose :: spawn_poses t'
  | _ :: t' => spawn_poses t'
  end.



(** ** Scripted collaborators *)

(** One reply per collaborator; the tag editor answers as [StretchUtils]. *)
Record script : Type := {
  typed : result string;
  parsed : result Z;
  drawn : Z;
  made : result KitchenEnv;
  resolved : result string;
  loaded : result MjModel;
  written : result unit;
  started : result unit
}.

Definition play (s : script) : oracle :=
  with_utils
    (fun c =>
       match c return ret_ty c with
       | Input _ => typed s
       | Int _ => parsed s
       | RandomChoice _ => drawn s
       | RobosuiteMake _ _ _ => made s
       | GetAbsolutePathStretchXml _ => resolved s
       | FromXmlString _ => loaded s
       | WriteFile _ _ => written s
       | UntidyBot _ _ _ => started s
       | ReplaceXmlTagValue _ _ _ _ _ => Err (External "utils")
       | XmlRemoveSubelement _ _ => Err (External "utils")
       | XmlRemoveTagByName _ _ _ => Err (External "utils")
       | XmlModifyBodyPos _ _ _ _ _ => Err (External "utils")
       | InsertLineAfterMujocoTag _ _ => Err (External "utils")
       end).

(** A small kitchen: the default robot, one object body, a red geom, a blue
    site, and the blocks the cleanup strips. *)
Definition small_kitchen : node :=
  Elem "mujoco" [("model", "base")]
    [ Elem "option" [("timestep", "0.002")] [];
      Elem "worldbody" []
        [ Elem "body"
            [("name", "robot0_base"); ("pos", "0.5 -0.8 0"); ("quat", "1 0 0 0")]
            [ Elem "geom" [("name", "robot0_g"); ("rgba", "0.5 0 0 1")] [] ];
          Elem "body" [("name", "obj_main"); ("pos", "0 0 0")]
            [ Elem "geom" [("name", "obj_reg"); ("rgba", "0.5 0 0 0.5")] [];
              Elem "site" [("name", "obj_site"); ("rgba", "0.5 0 0 1")] [] ];
          Elem "site" [("name", "marker"); ("rgba", "0.3 0.4 1 0.5")] [] ];
      Elem "actuator" [] [ Elem "motor" [("name", "m0")] [] ];
      Elem "sensor" [] [ Elem "force" [("name", "f0")] [] ] ].

Definition small_env : KitchenEnv :=
  {| sim_model := mj_model 0;
     sim_xml := small_kitchen;
     object_cfgs := [ {| cfg_name := "obj"; cfg_cat := "apple" |} ];
     object_placements := [ ("obj", ("2.1 -0.3 0.95", "0.7 0 0 0.7")) ] |}.

Definition small_styles : list (Z * string) :=
  [ (1%Z, "scandanavian"); (0%Z, "industrial"); (2%Z, "coastal") ].

Definition small_script : script :=
  {| typed := Ok "abc";
     parsed := Err ValueError;
     drawn := 2%Z;
     made := Ok small_env;
     resolved := Ok "/opt/stretch/stretch.xml";
     loaded := Ok (mj_model 1);
     written := Ok tt;
     started := Ok tt |}.

(** The object list of [small_env] with its one object listed twice. *)
Definition twice_listed : list obj_cfg :=
  [ {| cfg_name := "obj"; cfg_cat := "apple" |};
    {| cfg_name := "obj"; cfg_cat := "apple" |} ].

(** The wizard on the small kitchen: no layout given and the prompt answered
    with text that does not parse, style 1, a destination path, no spawn
    pose. *)
Definition small_run : trace * result (MjModel * node * registry) :=
  exec (play small_script)
    (model_generation_wizard small_styles "PnPCounterToCab" PNone (PInt 1)
       (Some "/tmp/kitchen.xml") None).

(** The same with layout 2 and the style left to chance. *)
Definition small_random_run : trace * result (MjModel * node * registry) :=
  exec (play small_script)
    (model_generation_wizard small_styles "PnPCounterToCab" (PInt 2)
       (PInt (-1)) None None).

(** The command line entry on the small kitchen, layout 2 and style 1. *)
Definition small_main_run : trace * result unit :=
  exec (play small_script)
    (main small_styles "PnPCounterToCab" (PInt 2) (PInt 1) None).

(** ** What the cleanup computes *)

(** The document and pose [custom_cleanups] returns when the tag editor
    answers as [StretchUtils]. *)
Definition cleaned (xml : node) : result (node * attrib) :=
  let xml := StretchUtils.replace_xml_tag_value xml "geom" "rgba"
               "0.5 0 0 0.5" "0.5 0 0 0" in
  let xml := StretchUtils.replace_xml_tag_value xml "geom" "rgba"
               "0.5 0 0 1" "0.5 0 0 0" in
  let xml := StretchUtils.replace_xml_tag_value xml "site" "rgba"
               "0.5 0 0 1" "0.5 0 0 0" in
  let xml := StretchUtils.replace_xml_tag_value xml "site" "actuator"
               "0.3 0.4 1 0.5" "0.3 0.4 1 0" in
  let xml := StretchUtils.xml_remove_subelement xml "actuator" in
  let xml := StretchUtils.xml_remove_subelement xml "sensor" in
  let xml := StretchUtils.xml_remove_subelement xml "option" in
  StretchUtils.xml_remove_tag_by_name xml "body" "robot0_base".

(** The four colour replacements of [custom_cleanups], on their own. *)
Definition recoloured (xml : node) : node :=
  let xml := StretchUtils.replace_xml_tag_value xml "geom" "rgba"
               "0.5 0 0 0.5" "0.5 0 0 0" in
  let xml := StretchUtils.replace_xml_tag_value xml "geom" "rgba"
               "0.5 0 0 1" "0.5 0 0 0" in
  let xml := StretchUtils.replace_xml_tag_value xml "site" "rgba"
               "0.5 0 0 1" "0.5 0 0 0" in
  StretchUtils.replace_xml_tag_value xml "site" "actuator"
    "0.3 0.4 1 0.5" "0.3 0.4 1 0".

(** ** Induction on documents *)

Section NodeInduction.
Variable P : node -> Prop.
Hypothesis P_elem : forall t a cs, Forall P cs -> P (Elem t a cs).
Hypothesis P_raw : forall s, P (Raw s).

Fixpoint node_induction (n : node) : P n :=
  match n with
  | Elem t a cs =>
      P_elem t a cs
        ((fix all (l : list node) : Forall P l :=
            match l with
            | [] => Forall_nil P
            | c :: l' => Forall_cons c (node_induction c) (all l')
            end) cs)
  | Raw s => P_raw s
  end.
End NodeInduction.

(** ** The placement registry against the document *)

(** The key of an object in the document and in the registry. *)
Definition key_of (cfg : obj_cfg) : string :=
  String.append (cfg_name cfg) "_main".



(** ** Further observations on traces *)

(** The environments made: the arguments of each [robosuite.make]. *)
Fixpoint makes (t : trace) : list (string * pyval * pyval) :=
  match t with
  | [] => []
  | (RobosuiteMake env_name layout style, _) :: t' =>
      (env_name, layout, style) :: makes t'
  | _ :: t' => makes t'
  end.

(** The prompts shown by [input]. *)
Fixpoint prompts (t : trace) : list string :=
  match t with
  | [] => []
  | (Input prompt, _) :: t' => prompt :: prompts t'
  | _ :: t' => prompts t'
  end.

(** The candidate lists handed to [np.random.choice]. *)
Fixpoint draws (t : trace) : list (list Z) :=
  match t with
  | [] => []
  | (RandomChoice a, _) :: t' => a :: draws t'
  | _ :: t' => draws t'
  end.

(** The pose overrides asked of [xml_modify_body_pos]: tag, name, position
    and quaternion. *)
Fixpoint placings (t : trace) : list (string * string * string * string) :=
  match t with
  | [] => []
  | (XmlModifyBodyPos _ tag name pos quat, _) :: t' =>
      (tag, name, pos, quat) :: placings t'
  | _ :: t' => placings t'
  end.

(** The starts of the simulator. *)
Definition is_start (ev : event) : bool :=
  match fst ev with
  | UntidyBot _ _ _ => true
  | _ => false
  end.

(** The exception a reply carries, if it is one. *)
Definition raised (x : reply) : option exn :=
  match x with
  | RStr (Err e) | RInt (Err e) | REnv (Err e) | RDoc (Err e)
  | RCut (Err e) | RModel (Err e) | RUnit (Err e) => Some e
  | _ => None
  end.

Definition outcome {A : Type} (r : result A) : option exn :=
  match r with
  | Ok _ => None
  | Err e => Some e
  end.

(** A run is orderly when every call went well and it returns or raises a
    [KeyError] of a lookup of its own, or when its last call raised, every
    call before that went well, and it raises what that call raised. *)
Definition orderly (t : trace) (o : option exn) : Prop :=
  (Forall (fun ev => stage_ok ev = true) t /\ (o = None \/ o = Some KeyError))
  \/ (exists t0 c x e,
        t = t0 ++ [(c, x)]
        /\ Forall (fun ev => stage_ok ev = true) t0
        /\ raised x = Some e
        /\ o = Some e).

Definition Orderly {A : Type} (p : prog A) : Prop :=
  forall t r, runs p t r -> orderly t (outcome r).

(** The key [f'object_{i}']. *)
Definition object_label (i : Z) : string :=
  String.append "object_" (py_str (PInt i)).

(** What [main] hands to the simulator for the [n]-th entry of the
    registry. *)
Definition numbered (n : nat) (entry : string * placement)
    : string * scene_object :=
  (object_label (Z.of_nat n + 1),
   {| o_id := Z.of_nat n; o_key := fst entry; o_name := p_cat (snd entry);
      o_position := p_pos (snd entry) |}).

(** How the wizard comes by an id [v]: it is the reply of a draw from the
    candidates, or it is not [-1] and is the caller's id, or (when the caller
    gave none) a key picked at the prompt. *)
Definition id_resolved (given : pyval) (options : odict) (candidates : list Z)
    (t : trace) (v : pyval) : Prop :=
  (exists z, v = PInt z /\ In (RandomChoice candidates, RChoice z) t)
  \/ (pyval_eqb v (PInt (-1)) = false
      /\ if is_none given then In v (dict_keys options) else v = given).

(** ** Further scripted runs *)

(** The wizard on the small kitchen with both ids supplied. *)
Definition small_given_run : trace * result (MjModel * node * registry) :=
  exec (play small_script)
    (model_generation_wizard small_styles "PnPCounterToCab" (PInt 2) (PInt 1)
       None None).

(** The same with a layout id that is not among the layouts. *)
Definition unknown_layout_run : trace * result (MjModel * node * registry) :=
  exec (play small_script)
    (model_generation_wizard small_styles "PnPCounterToCab" (PInt 42) (PInt 1)
       None None).

(** A kitchen whose default robot carries neither [pos] nor [quat], and no
    objects. *)
Definition bare_kitchen : node :=
  Elem "mujoco" []
    [ Elem "worldbody" [] [ Elem "body" [("name", "robot0_base")] [] ] ].

Definition bare_script : script :=
  {| typed := Ok "1";
     parsed := Ok 1%Z;
     drawn := 2%Z;
     made := Ok {| sim_model := mj_model 0; sim_xml := bare_kitchen;
                   object_cfgs := []; object_placements := [] |};
     resolved := Ok "/opt/stretch/stretch.xml";
     loaded := Ok (mj_model 1);
     written := Ok tt;
     started := Ok tt |}.

Definition bare_run : trace * result (MjModel * node * registry) :=
  exec (play bare_script)
    (model_generation_wizard small_styles "PnPCounterToCab" (PInt 2) (PInt 1)
       (Some "/tmp/kitchen.xml") None).

(** The selector on three layouts. *)
Definition three_layouts : odict :=
  [ (PInt 0, PStr "One wall"); (PInt 1, PStr "L-shaped");
    (PInt 2, PStr "Galley") ].

(** The placement loop on the object of [small_env] listed twice. *)
Definition twice_listed_run : trace * result (node * registry) :=
  exec (play small_script)
    (place_objects (object_placements small_env) twice_listed small_kitchen []).






(** * Properties *)

(** ** Runs of programs *)

Lemma reply_of_inj (c : call) (x y : ret_ty c) :
  reply_of c x = reply_of c y -> x = y.
Proof.
  destruct c; simpl in *; intro H; injection H; auto.
Qed.

Lemma runs_bind {A B : Type} (m : prog A) (f : A -> prog B) t r :
  runs (bind m f) t r <->
  (exists e, runs m t (Err e) /\ r = Err e) \/
  (exists a t1 t2, runs m t1 (Ok a) /\ runs (f a) t2 r /\ t = t1 ++ t2).
Proof.
  revert t; induction m as [a | e | c k IH]; intro t; simpl.
  - split.
    + intro H. right. exists a, [], t. auto.
    + intros [(e & [_ He] & _) | (a' & t1 & t2 & [-> Ha] & H & ->)].
      * discriminate.
      * injection Ha as <-. exact H.
  - split.
    + intros [-> ->]. left. exists e. auto.
    + intros [(e' & [-> He] & ->) | (a & t1 & t2 & [_ Ha] & _)].
      * injection He as ->. auto.
      * discriminate.
  - split.
    + intros (x & t' & -> & H). apply IH in H.
      destruct H as [(e & H & ->) | (a & t1 & t2 & H1 & H2 & ->)].
      * left. exists e. split; [exists x, t'; split; [reflexivity | exact H] | reflexivity].
      * right. exists a, ((c, reply_of c x) :: t1), t2.
        split; [exists x, t1; split; [reflexivity | exact H1] | split; [exact H2 | reflexivity]].
    + intros [(e & (x & t' & -> & H) & ->) | (a & t1 & t2 & (x & t' & -> & H1) & H2 & ->)].
      * exists x, t'. split; [reflexivity |]. apply IH. left.
        exists e. split; [exact H | reflexivity].
      * exists x, (t' ++ t2). split; [reflexivity |]. apply IH. right.
        exists a, t', t2. split; [exact H1 | split; [exact H2 | reflexivity]].
Qed.

(** A program always has a run: the one an oracle drives. *)
Lemma exec_runs {A : Type} (o : oracle) (p : prog A) :
  runs p (fst (exec o p)) (snd (exec o p)).
Proof.
  induction p as [a | e | c k IH]; simpl; auto.
  specialize (IH (o c)). destruct (exec o (k (o c))) as [t r]. simpl in *.
  exists (o c), t. auto.
Qed.

(** The replies fix the result. *)
Lemma runs_result {A : Type} (p : prog A) t r1 r2 :
  runs p t r1 -> runs p t r2 -> r1 = r2.
Proof.
  revert t; induction p as [a | e | c k IH]; intro t; simpl.
  - intros [_ ->] [_ ->]. reflexivity.
  - intros [_ ->] [_ ->]. reflexivity.
  - intros (x & t1 & -> & H1) (y & t2 & E & H2).
    injection E as E1 E2. apply reply_of_inj in E1. subst. eauto.
Qed.

Lemma runs_denote {A : Type} (h : forall c, option (ret_ty c)) (p : prog A) t r :
  runs p t r -> Forall (obeys h) t ->
  runs (denote h p) (filter (fun ev => negb (answered h ev)) t) r.
Proof.
  revert t; induction p as [a | e | c k IH]; intro t; simpl.
  - intros [-> ->] _. auto.
  - intros [-> ->] _. auto.
  - intros (x & t' & -> & H) F. inversion F as [| ev l Hev Hl]; subst.
    unfold obeys, answered in *. simpl in *.
    destruct (h c) as [y |] eqn:E; simpl.
    + apply reply_of_inj in Hev. subst. auto.
    + exists x. eexists. split; [reflexivity | auto].
Qed.


(** ** The option selector *)

Lemma list_index_In {A : Type} (l : list A) (k : Z) (a : A) :
  list_index l k = Some a -> In a l.
Proof.
  unfold list_index.
  destruct (0 <=? k)%Z; [apply nth_error_In |].
  destruct (- len l <=? k)%Z; [apply nth_error_In | discriminate].
Qed.

(** Inside a non-empty list the clamped index is an ordinary position. *)
Lemma list_index_clamped {A : Type} (l : list A) (n : Z) :
  l <> [] ->
  let k := Z.min (Z.max n 0) (len l - 1) in
  (0 <= k < len l)%Z /\ list_index l k = nth_error l (Z.to_nat k)
  /\ exists a, nth_error l (Z.to_nat k) = Some a.
Proof.
  intros N k.
  assert (L : (0 < len l)%Z).
  { unfold len. destruct l; [contradiction | simpl; lia]. }
  assert (B : (0 <= k < len l)%Z) by (unfold k; lia).
  split; [exact B |]. split.
  - unfold list_index. destruct (0 <=? k)%Z eqn:E; [reflexivity |].
    apply Z.leb_gt in E. lia.
  - destruct (nth_error l (Z.to_nat k)) as [a |] eqn:E; [eauto |].
    apply nth_error_None in E. unfold len in B. lia.
Qed.

(** The [except] branch makes no call. *)
Lemma fallback_silent (options : odict) (default : pyval) t r :
  runs (if is_none default then getitem pyval_eqb options (PInt 0)
        else Ret default) t r ->
  t = [].
Proof.
  unfold getitem. destruct (is_none default).
  - destruct (dict_get pyval_eqb options (PInt 0)); simpl; intros [-> _];
      reflexivity.
  - simpl. intros [-> _]. reflexivity.
Qed.

Lemma fallback_given (options : odict) (default : pyval) t r :
  is_none default = false ->
  runs (if is_none default then getitem pyval_eqb options (PInt 0)
        else Ret default) t r ->
  t = [] /\ r = Ok default.
Proof.
  intros ->. simpl. auto.
Qed.

(** With a default given, the selector returns: the key at the index it
    computed, or the default after any failure inside the [try]. *)
Lemma choose_option_given options option_name show_keys default
    default_message t r :
  is_none default = false ->
  runs (choose_option options option_name show_keys default default_message) t r ->
  exists choice,
    r = Ok choice
    /\ (In choice (dict_keys options) \/ choice = default)
    /\ (forall s e, In (Int s, RInt (Err e)) t -> choice = default)
    /\ Forall (fun ev => picking ev = true) t.
Proof.
  intros D H. unfold choose_option in H. rewrite D in H. simpl in H.
  destruct H as (x & t1 & -> & H). destruct x as [s | e]; simpl in H.
  - destruct H as (y & t2 & -> & H). destruct y as [n | e]; simpl in H.
    + unfold getindex in H.
      destruct (list_index (dict_keys options)
                  (Z.min (Z.max n 0) (len options - 1))) as [key |] eqn:K;
        simpl in H.
      * destruct H as [-> ->]. exists key. repeat split.
        -- left. eapply list_index_In; eauto.
        -- intros s0 e [E | [E | []]]; discriminate E.
        -- repeat constructor.
      * apply (fallback_given _ _ _ _ D) in H. destruct H as [-> ->].
        exists default. repeat split; auto; repeat constructor.
    + apply (fallback_given _ _ _ _ D) in H. destruct H as [-> ->].
      exists default. repeat split; auto; repeat constructor.
  - apply (fallback_given _ _ _ _ D) in H. destruct H as [-> ->].
    exists default. repeat split; auto; repeat constructor.
Qed.

(** C6, as the code has it.  With a default given, [choose_option] never
    raises, for every options mapping and every reply of [input] and [int];
    when the text fails to parse it returns that default; and what it
    returns is a key of the mapping or that default (so a key or [-1] at the
    two call sites, which pass [-1]). *)
Theorem choose_option_key_or_default options option_name show_keys default
    default_message t r :
  is_none default = false ->
  runs (choose_option options option_name show_keys default default_message) t r ->
  exists choice,
    r = Ok choice
    /\ (forall s e, In (Int s, RInt (Err e)) t -> choice = default)
    /\ (In choice (dict_keys options) \/ choice = default).
Proof.
  intros D H. destruct (choose_option_given _ _ _ _ _ _ _ D H)
    as (choice & -> & K & P & _).
  exists choice. auto.
Qed.

(** The body of the [try], under any silent handler: once the text has
    parsed, the key at the clamped index comes back. *)
Lemma try_clamps (options : odict) (prompt : string)
    (handler : exn -> prog pyval) s n t r :
  options <> [] ->
  (forall e t' r', runs (handler e) t' r' -> t' = []) ->
  runs (try_except
          (s <- input prompt ;;
           n <- int s ;;
           getindex (dict_keys options)
             (Z.min (Z.max n 0) (len options - 1)))
          handler) t r ->
  In (Int s, RInt (Ok n)) t ->
  exists key,
    nth_error (dict_keys options)
      (Z.to_nat (Z.min (Z.max n 0) (len options - 1))) = Some key
    /\ r = Ok key.
Proof.
  intros N S H I.
  assert (NK : dict_keys options <> []).
  { destruct options; [contradiction | discriminate]. }
  assert (LK : len (dict_keys options) = len options).
  { unfold len, dict_keys. rewrite length_map. reflexivity. }
  simpl in H.
  destruct H as (x & t1 & -> & H). destruct x as [s1 | e]; simpl in H.
  - destruct H as (y & t2 & -> & H). destruct y as [n1 | e]; simpl in H.
    + destruct I as [E | [E | I]]; [discriminate E | | ].
      * injection E as -> ->.
        destruct (list_index_clamped (dict_keys options) n NK)
          as (_ & L & key & K).
        rewrite LK in L, K. unfold getindex in H. rewrite L, K in H.
        simpl in H. destruct H as [-> ->]. exists key. auto.
      * exfalso. unfold getindex in H.
        destruct (list_index (dict_keys options)
                    (Z.min (Z.max n1 0) (len options - 1))); simpl in H.
        -- destruct H as [-> _]. destruct I.
        -- apply S in H. subst. destruct I.
    + exfalso. destruct I as [E | [E | I]]; try discriminate E.
      apply S in H. subst. destruct I.
  - exfalso. destruct I as [E | I]; [discriminate E |].
    apply S in H. subst. destruct I.
Qed.

(** The run of the [try] in which the text parses: two calls, and the key at
    the clamped index. *)
Lemma try_selects (options : odict) (prompt : string)
    (handler : exn -> prog pyval) s n key :
  list_index (dict_keys options) (Z.min (Z.max n 0) (len options - 1))
  = Some key ->
  runs (try_except
          (s <- input prompt ;;
           n <- int s ;;
           getindex (dict_keys options)
             (Z.min (Z.max n 0) (len options - 1)))
          handler)
    [(Input prompt, RStr (Ok s)); (Int s, RInt (Ok n))] (Ok key).
Proof.
  intros K. simpl.
  exists (Ok s), [(Int s, RInt (Ok n))]. split; [reflexivity |]. simpl.
  exists (Ok n), []. split; [reflexivity |]. simpl.
  unfold getindex. rewrite K. simpl. auto.
Qed.

(** When there is something to fall back on, a default or an entry under the
    key 0, the selector gets to its prompt; on a non-empty mapping the run in
    which the text parses as [n] returns the key at the clamped index. *)
Lemma choose_option_selects options option_name show_keys default
    default_message s n :
  options <> [] ->
  is_none default = false
  \/ (exists label, dict_get pyval_eqb options (PInt 0) = Some label) ->
  exists prompt key,
    nth_error (dict_keys options)
      (Z.to_nat (Z.min (Z.max n 0) (len options - 1))) = Some key
    /\ runs (choose_option options option_name show_keys default
               default_message)
         [(Input prompt, RStr (Ok s)); (Int s, RInt (Ok n))] (Ok key).
Proof.
  intros N D.
  assert (NK : dict_keys options <> []).
  { destruct options; [contradiction | discriminate]. }
  assert (LK : len (dict_keys options) = len options).
  { unfold len, dict_keys. rewrite length_map. reflexivity. }
  destruct (list_index_clamped (dict_keys options) n NK) as (_ & L & key & K).
  rewrite LK in L, K. rewrite K in L.
  unfold choose_option.
  destruct (is_none default) eqn:E.
  - destruct D as [D | (label & D)]; [discriminate D |].
    unfold getitem at 1. rewrite D. simpl bind.
    eexists. exists key. split; [exact K |].
    apply try_selects. exact L.
  - simpl bind. eexists. exists key. split; [exact K |].
    apply try_selects. exact L.
Qed.

(** C7, as the code has it.  On a non-empty options mapping, called with a
    default or holding the key 0, the run of [choose_option] in which the
    text typed parses as [n] is the prompt and the parse, and it returns the
    key at index [min(max(n, 0), count - 1)]; and every run in which the text
    parsed as [n] returns that key. *)
Theorem choose_option_clamps options option_name show_keys default
    default_message s n :
  options <> [] ->
  is_none default = false
  \/ (exists label, dict_get pyval_eqb options (PInt 0) = Some label) ->
  exists key,
    nth_error (dict_keys options)
      (Z.to_nat (Z.min (Z.max n 0) (len options - 1))) = Some key
    /\ (exists prompt,
          runs (choose_option options option_name show_keys default
                  default_message)
            [(Input prompt, RStr (Ok s)); (Int s, RInt (Ok n))] (Ok key))
    /\ (forall t r,
          runs (choose_option options option_name show_keys default
                  default_message) t r ->
          In (Int s, RInt (Ok n)) t ->
          r = Ok key).
Proof.
  intros N D.
  destruct (choose_option_selects options option_name show_keys default
              default_message s n N D) as (prompt & key & K & R).
  exists key. split; [exact K |]. split; [exists prompt; exact R |].
  intros t r H I. unfold choose_option in H.
  apply runs_bind in H.
  destruct H as [(e & H & ->) | (d & t1 & t2 & H1 & H2 & ->)].
  - apply fallback_silent in H. subst. destruct I.
  - apply fallback_silent in H1. subst. simpl in I.
    destruct (try_clamps options _ _ s n t2 r N
                (fun e t' r' => fallback_silent options d t' r') H2 I)
      as (key' & K' & ->).
    congruence.
Qed.

(** Replays a run given by its trace, call by call. *)
Ltac replay :=
  vm_compute;
  repeat (eexists; eexists; split; [reflexivity |]);
  split; reflexivity.

(** C6 as stated fails in two ways.  Without a default, [options[0]] is
    looked up before the [try], and a mapping without the key 0 raises
    [KeyError]; and a default that is neither a key nor [-1] is returned as
    it is when the text does not parse. *)
Lemma choose_option_counterexample :
  choose_option [(PInt 1, PStr "Galley"); (PInt 2, PStr "Wraparound")]
    "kitchen layout" false PNone PNone = Raise KeyError
  /\ runs
       (choose_option [(PInt 0, PStr "Galley"); (PInt 1, PStr "Wraparound")]
          "kitchen layout" false (PInt 7) PNone)
       [ (Input "Choose an option 0 to 1, or any other key for default (7): ",
          RStr (Ok "abc"));
         (Int "abc", RInt (Err ValueError)) ]
       (Ok (PInt 7))
  /\ ~ In (PInt 7)
         (dict_keys [(PInt 0, PStr "Galley"); (PInt 1, PStr "Wraparound")])
  /\ PInt 7 <> PInt (-1).
Proof.
  split; [reflexivity |]. split; [replay |]. split.
  - simpl. intros [E | [E | []]]; discriminate E.
  - discriminate.
Qed.

Lemma choose_option_key_or_default_witness :
  exists choice,
    Ok (PInt (-1)) = Ok choice
    /\ (forall s e,
          In (Int s, RInt (Err e))
            [ (Input
                 "Choose an option 0 to 9, or any other key for default (random layouts): ",
               RStr (Ok "abc"));
              (Int "abc", RInt (Err ValueError)) ] ->
          choice = PInt (-1))
    /\ (In choice (dict_keys layouts) \/ choice = PInt (-1)).
Proof.
  apply (choose_option_key_or_default layouts "kitchen layout" false
           (PInt (-1)) (PStr "random layouts")).
  - reflexivity.
  - replay.
Defined.

(** C7 as stated fails on the empty mapping: the index is [-1], the lookup
    raises [IndexError] inside the [try], and the default comes back.  And on
    a mapping that is not empty it fails when there is neither a default nor
    an entry under the key 0: [options[0]] raises [KeyError] before the
    prompt. *)
Lemma choose_option_empty_counterexample :
  runs
    (choose_option [] "kitchen layout" false (PInt (-1))
       (PStr "random layouts"))
    [ (Input
         "Choose an option 0 to -1, or any other key for default (random layouts): ",
       RStr (Ok "5"));
      (Int "5", RInt (Ok 5%Z)) ]
    (Ok (PInt (-1)))
  /\ list_index (dict_keys ([] : odict))
       (Z.min (Z.max 5 0) (len ([] : odict) - 1)) = None
  /\ choose_option [(PInt 1, PStr "Galley"); (PInt 2, PStr "Wraparound")]
       "kitchen layout" false PNone PNone = Raise KeyError.
Proof.
  split; [replay |]. split; reflexivity.
Qed.

(** Three options and the input 5, with the default of the call sites: the
    key at index 2.  Three options and the input -4, with no default: the
    key at index 0. *)
Lemma choose_option_clamps_witness :
  ((exists prompt,
      runs (choose_option three_layouts "kitchen layout" false (PInt (-1))
              (PStr "random layouts"))
        [(Input prompt, RStr (Ok "5")); (Int "5", RInt (Ok 5%Z))]
        (Ok (PInt 2)))
   /\ (forall t r,
         runs (choose_option three_layouts "kitchen layout" false (PInt (-1))
                 (PStr "random layouts")) t r ->
         In (Int "5", RInt (Ok 5%Z)) t ->
         r = Ok (PInt 2)))
  /\ ((exists prompt,
         runs (choose_option three_layouts "kitchen layout" false PNone PNone)
           [(Input prompt, RStr (Ok "-4")); (Int "-4", RInt (Ok (-4)%Z))]
           (Ok (PInt 0)))
      /\ (forall t r,
            runs (choose_option three_layouts "kitchen layout" false PNone
                    PNone) t r ->
            In (Int "-4", RInt (Ok (-4)%Z)) t ->
            r = Ok (PInt 0))).
Proof.
  split.
  - destruct (choose_option_clamps three_layouts "kitchen layout" false
                (PInt (-1)) (PStr "random layouts") "5" 5%Z)
      as (key & K & R & A).
    + discriminate.
    + left. reflexivity.
    + simpl in K. injection K as <-. split; assumption.
  - destruct (choose_option_clamps three_layouts "kitchen layout" false
                PNone PNone "-4" (-4)%Z)
      as (key & K & R & A).
    + discriminate.
    + right. exists (PStr "One wall"). reflexivity.
    + simpl in K. injection K as <-. split; assumption.
Defined.

(** ** The tag editor *)

Lemma prune_elem (p : pred) t a cs :
  prune p (Elem t a cs) =
  Elem t a (map (prune p) (filter (fun c => negb (on_elem p c)) cs)).
Proof.
  simpl. f_equal. induction cs as [| c cs IH]; simpl; [reflexivity |].
  destruct (on_elem p c); simpl; rewrite IH; reflexivity.
Qed.

Lemma select_elem (p : pred) t a cs :
  select p (Elem t a cs) =
  (if p t a then [Elem t a cs] else []) ++ flat_map (select p) cs.
Proof.
  reflexivity.
Qed.

Lemma flat_map_nil {A B : Type} (f : A -> list B) (l : list A) :
  Forall (fun x => f x = []) l -> flat_map f l = [].
Proof.
  induction 1 as [| x l E _ IH]; simpl; [reflexivity |].
  rewrite E, IH. reflexivity.
Qed.

Lemma flat_map_nil_inv {A B : Type} (f : A -> list B) (l : list A) :
  flat_map f l = [] -> Forall (fun x => f x = []) l.
Proof.
  induction l as [| x l IH]; simpl; intro H; constructor.
  - destruct (f x); [reflexivity | discriminate].
  - apply IH. destruct (f x); [exact H | discriminate].
Qed.

Lemma select_nil_inv (q : pred) t a cs :
  select q (Elem t a cs) = [] ->
  q t a = false /\ Forall (fun c => select q c = []) cs.
Proof.
  rewrite select_elem. destruct (q t a); simpl; [discriminate |].
  intro H. split; [reflexivity | apply flat_map_nil_inv; exact H].
Qed.

(** Pruning brings in no element: what was absent stays absent. *)
Lemma select_prune_absent (q p : pred) n :
  select q n = [] -> select q (prune p n) = [].
Proof.
  induction n as [t a cs IH | s] using node_induction; [| reflexivity].
  intro H. apply select_nil_inv in H. destruct H as [Q F].
  rewrite prune_elem, select_elem, Q. simpl.
  apply flat_map_nil. apply Forall_map.
  rewrite Forall_forall in *. intros c I. apply filter_In in I.
  destruct I as [I _]. auto.
Qed.

Lemma select_sub_prune_absent (q p : pred) n :
  select_sub q n = [] -> select_sub q (prune p n) = [].
Proof.
  destruct n as [t a cs | s]; [| reflexivity].
  rewrite prune_elem. simpl. intro H.
  apply flat_map_nil_inv in H.
  apply flat_map_nil. apply Forall_map.
  rewrite Forall_forall in *. intros c I. apply filter_In in I.
  destruct I as [I _]. apply select_prune_absent. auto.
Qed.

(** After pruning [p], nothing below the root satisfies [p]. *)
Lemma select_sub_prune (p : pred) n : select_sub p (prune p n) = [].
Proof.
  induction n as [t a cs IH | s] using node_induction; [| reflexivity].
  rewrite prune_elem. simpl.
  apply flat_map_nil. apply Forall_map.
  rewrite Forall_forall in *. intros c I. apply filter_In in I.
  destruct I as [I N]. specialize (IH c I).
  destruct c as [t' a' cs' | s']; [| reflexivity].
  simpl in N. rewrite prune_elem in *. rewrite select_elem.
  destruct (p t' a'); [discriminate |]. exact IH.
Qed.

(** A rewrite after which no element can satisfy [q] removes [q]. *)
Lemma select_rewrite_gone (q p : pred) (f : attrib -> attrib) n :
  (forall t a, q t (if p t a then f a else a) = false) ->
  select q (rewrite p f n) = [].
Proof.
  intros F. induction n as [t a cs IH | s] using node_induction;
    [| reflexivity].
  simpl. rewrite F. simpl. apply flat_map_nil. apply Forall_map. exact IH.
Qed.

(** A rewrite that cannot make [q] true keeps [q] absent. *)
Lemma select_rewrite_absent (q p : pred) (f : attrib -> attrib) n :
  (forall t a, q t a = false -> q t (f a) = false) ->
  select q n = [] ->
  select q (rewrite p f n) = [].
Proof.
  intros F. induction n as [t a cs IH | s] using node_induction;
    [| reflexivity].
  intros H. apply select_nil_inv in H. destruct H as [Q H]. simpl.
  assert (Q' : q t (if p t a then f a else a) = false).
  { destruct (p t a); auto. }
  rewrite Q'. simpl. apply flat_map_nil. apply Forall_map.
  rewrite Forall_forall in *. auto.
Qed.

Lemma carries_replaced tag attribute pattern replacement t a :
  pattern <> replacement ->
  carries tag attribute pattern t
    (if has_tag tag t a
     then StretchUtils.replace_value attribute pattern replacement a
     else a) = false.
Proof.
  intros N. unfold carries, has_tag.
  destruct (String.eqb t tag); [| reflexivity]. simpl.
  unfold StretchUtils.replace_value.
  induction a as [| [k v] a IH]; simpl; [reflexivity |].
  rewrite IH, orb_false_r.
  destruct (String.eqb k attribute) eqn:K; simpl; [| rewrite K; reflexivity].
  destruct (String.eqb v pattern) eqn:V; simpl; rewrite K; simpl.
  - apply String.eqb_neq. congruence.
  - exact V.
Qed.

Lemma carries_kept tag attribute value attribute' pattern replacement t a :
  replacement <> value ->
  carries tag attribute value t a = false ->
  carries tag attribute value t
    (StretchUtils.replace_value attribute' pattern replacement a) = false.
Proof.
  intros N. unfold carries.
  destruct (String.eqb t tag); [| reflexivity]. simpl.
  unfold StretchUtils.replace_value.
  induction a as [| [k v] a IH]; simpl; [reflexivity |].
  intros H. apply orb_false_iff in H. destruct H as [H1 H2].
  rewrite (IH H2), orb_false_r.
  destruct (String.eqb k attribute' && String.eqb v pattern); simpl;
    [| exact H1].
  apply andb_false_iff. right. apply String.eqb_neq. exact N.
Qed.

(** The replacement leaves no element of the tag carrying the old value. *)
Lemma replace_removes xml tag attribute pattern replacement :
  pattern <> replacement ->
  select (carries tag attribute pattern)
    (StretchUtils.replace_xml_tag_value xml tag attribute pattern replacement)
  = [].
Proof.
  intros N. apply select_rewrite_gone. intros t a.
  apply carries_replaced. exact N.
Qed.

Lemma replace_keeps_absent xml tag attribute value tag' attribute' pattern
    replacement :
  replacement <> value ->
  select (carries tag attribute value) xml = [] ->
  select (carries tag attribute value)
    (StretchUtils.replace_xml_tag_value xml tag' attribute' pattern replacement)
  = [].
Proof.
  intros N. apply select_rewrite_absent. intros t a.
  apply carries_kept. exact N.
Qed.

Lemma replace_value_twice attribute pattern replacement a :
  StretchUtils.replace_value attribute pattern replacement
    (StretchUtils.replace_value attribute pattern replacement a)
  = StretchUtils.replace_value attribute pattern replacement a.
Proof.
  unfold StretchUtils.replace_value. rewrite map_map. apply map_ext.
  intros [k v]. simpl.
  destruct (String.eqb k attribute && String.eqb v pattern) eqn:E; simpl.
  - apply andb_true_iff in E. destruct E as [K V]. rewrite K. simpl.
    destruct (String.eqb replacement pattern) eqn:R; [| reflexivity].
    reflexivity.
  - rewrite E. reflexivity.
Qed.

Lemma rewrite_twice (p : pred) (f : attrib -> attrib) n :
  (forall t a, p t (f a) = p t a) ->
  (forall a, f (f a) = f a) ->
  rewrite p f (rewrite p f n) = rewrite p f n.
Proof.
  intros Hp Hf. induction n as [t a cs IH | s] using node_induction;
    [| reflexivity].
  simpl. f_equal.
  - destruct (p t a) eqn:E.
    + rewrite Hp, E. apply Hf.
    + rewrite E. reflexivity.
  - rewrite map_map. apply map_ext_in. rewrite Forall_forall in IH. exact IH.
Qed.

(** C8.  Replacing an attribute value is idempotent: a second application
    of the same replacement leaves the document, and so the bytes it
    serializes to, as the first one left them.  This holds whether or not the
    old and the new value differ. *)
Theorem replace_xml_tag_value_idempotent xml tag attribute pattern replacement :
  StretchUtils.replace_xml_tag_value
    (StretchUtils.replace_xml_tag_value xml tag attribute pattern replacement)
    tag attribute pattern replacement
  = StretchUtils.replace_xml_tag_value xml tag attribute pattern replacement
  /\ tostring
       (StretchUtils.replace_xml_tag_value
          (StretchUtils.replace_xml_tag_value xml tag attribute pattern
             replacement)
          tag attribute pattern replacement)
     = tostring
         (StretchUtils.replace_xml_tag_value xml tag attribute pattern
            replacement).
Proof.
  assert (E : StretchUtils.replace_xml_tag_value
                (StretchUtils.replace_xml_tag_value xml tag attribute pattern
                   replacement)
                tag attribute pattern replacement
              = StretchUtils.replace_xml_tag_value xml tag attribute pattern
                  replacement).
  { unfold StretchUtils.replace_xml_tag_value.
    apply rewrite_twice.
    - reflexivity.
    - intro a. apply replace_value_twice. }
  split; [exact E | rewrite E; reflexivity].
Qed.

(** ** The cleanup stage *)

(** Under the tag editor of [StretchUtils], [custom_cleanups] returns
    [cleaned]. *)
Lemma custom_cleanups_utils xml t r :
  runs (custom_cleanups xml) t r -> utils_ok t -> r = cleaned xml.
Proof.
  intros H U. pose proof (runs_denote utils_impl _ _ _ H U) as D.
  unfold custom_cleanups in D. simpl in D. fold (cleaned xml) in D.
  destruct (cleaned xml) as [[xml' pose] | e]; simpl in D;
    destruct D as [_ ->]; reflexivity.
Qed.

(** What the cleanup does achieve: no actuator, sensor or option element is
    left below the root, the default robot body is gone, and the three
    colour replacements on [rgba] have left none of their old values. *)
Lemma cleaned_strips xml xml' pose :
  cleaned xml = Ok (xml', pose) ->
  select_sub (has_tag "actuator") xml' = []
  /\ select_sub (has_tag "sensor") xml' = []
  /\ select_sub (has_tag "option") xml' = []
  /\ select_sub (named "body" "robot0_base") xml' = []
  /\ select (carries "geom" "rgba" "0.5 0 0 0.5") xml' = []
  /\ select (carries "geom" "rgba" "0.5 0 0 1") xml' = []
  /\ select (carries "site" "rgba" "0.5 0 0 1") xml' = []
  /\ select (carries "site" "actuator" "0.3 0.4 1 0.5") xml' = [].
Proof.
  unfold cleaned, StretchUtils.xml_remove_tag_by_name,
    StretchUtils.xml_remove_subelement.
  destruct (select_sub _ _) as [| e [| e' l]]; try discriminate.
  intros E. injection E as <- _.
  repeat split.
  - do 3 apply select_sub_prune_absent. apply select_sub_prune.
  - do 2 apply select_sub_prune_absent. apply select_sub_prune.
  - apply select_sub_prune_absent. apply select_sub_prune.
  - apply select_sub_prune.
  - do 4 apply select_prune_absent.
    do 3 (apply replace_keeps_absent; [discriminate |]).
    apply replace_removes. discriminate.
  - do 4 apply select_prune_absent.
    do 2 (apply replace_keeps_absent; [discriminate |]).
    apply replace_removes. discriminate.
  - do 4 apply select_prune_absent.
    apply replace_keeps_absent; [discriminate |].
    apply replace_removes. discriminate.
  - do 4 apply select_prune_absent.
    apply replace_removes. discriminate.
Qed.

Lemma custom_cleanups_strips xml t xml' pose :
  runs (custom_cleanups xml) t (Ok (xml', pose)) ->
  utils_ok t ->
  select_sub (has_tag "actuator") xml' = []
  /\ select_sub (has_tag "sensor") xml' = []
  /\ select_sub (has_tag "option") xml' = []
  /\ select_sub (named "body" "robot0_base") xml' = []
  /\ select (carries "geom" "rgba" "0.5 0 0 0.5") xml' = []
  /\ select (carries "geom" "rgba" "0.5 0 0 1") xml' = []
  /\ select (carries "site" "rgba" "0.5 0 0 1") xml' = []
  /\ select (carries "site" "actuator" "0.3 0.4 1 0.5") xml' = [].
Proof.
  intros H U. apply custom_cleanups_utils in H; [| exact U].
  apply (cleaned_strips xml xml' pose). symmetry. exact H.
Qed.

(** A rewrite that leaves [q] as it is on every element keeps the number of
    elements satisfying [q]. *)
Lemma select_rewrite_length (q p : pred) (f : attrib -> attrib) n :
  (forall t a, q t (f a) = q t a) ->
  List.length (select q (rewrite p f n)) = List.length (select q n).
Proof.
  intros F. induction n as [t a cs IH | s] using node_induction;
    [| reflexivity].
  simpl.
  assert (Q : q t (if p t a then f a else a) = q t a).
  { destruct (p t a); auto. }
  rewrite Q, !length_app. f_equal.
  - destruct (q t a); reflexivity.
  - induction IH as [| c cs E _ IH']; simpl; [reflexivity |].
    rewrite !length_app, E, IH'. reflexivity.
Qed.

Lemma carries_unchanged tag attribute value attribute' pattern replacement t a :
  replacement <> value ->
  attribute' <> attribute \/ pattern <> value ->
  carries tag attribute value t
    (StretchUtils.replace_value attribute' pattern replacement a)
  = carries tag attribute value t a.
Proof.
  intros N M. unfold carries. f_equal.
  unfold StretchUtils.replace_value.
  induction a as [| [k v] a IH]; simpl; [reflexivity |].
  rewrite IH. f_equal.
  destruct (String.eqb k attribute' && String.eqb v pattern) eqn:E; simpl;
    [| reflexivity].
  apply andb_true_iff in E. destruct E as [K V].
  apply String.eqb_eq in K, V. subst k v.
  assert (L : String.eqb attribute' attribute && String.eqb pattern value
              = false).
  { apply andb_false_iff.
    destruct M as [M | M]; [left | right]; apply String.eqb_neq; exact M. }
  rewrite L. apply andb_false_iff. right. apply String.eqb_neq. exact N.
Qed.

(** On every document, the four replacements leave as many sites with the
    blue highlight in their [rgba] as there were. *)
Lemma recoloured_keeps_blue_rgba xml :
  List.length (select (carries "site" "rgba" "0.3 0.4 1 0.5") (recoloured xml))
  = List.length (select (carries "site" "rgba" "0.3 0.4 1 0.5") xml).
Proof.
  unfold recoloured, StretchUtils.replace_xml_tag_value.
  repeat (rewrite select_rewrite_length;
          [| intros t a; apply carries_unchanged;
             [discriminate | first [left; discriminate | right; discriminate]]]).
  reflexivity.
Qed.

(** C1 on the small kitchen.  The fourth replacement names the attribute
    [actuator], not [rgba]: the site that carries the blue highlight
    [0.3 0.4 1 0.5] in its [rgba] comes out of the cleanup as it went in. *)
Theorem custom_cleanups_keeps_blue_rgba :
  exists xml' pose,
    snd (exec (play small_script) (custom_cleanups small_kitchen))
    = Ok (xml', pose)
    /\ cleaned small_kitchen = Ok (xml', pose)
    /\ select (carries "site" "rgba" "0.3 0.4 1 0.5") xml'
       = [ Elem "site" [("name", "marker"); ("rgba", "0.3 0.4 1 0.5")] [] ].
Proof.
  eexists. eexists. split; [vm_compute; reflexivity |].
  split; vm_compute; reflexivity.
Qed.

(** ** Placement accumulation *)

Lemma dict_get_set_same {V : Type} (d : list (string * V)) k v :
  dict_get String.eqb (dict_set String.eqb d k v) k = Some v.
Proof.
  induction d as [| [k' v'] d IH]; simpl.
  - rewrite String.eqb_refl. reflexivity.
  - destruct (String.eqb k' k) eqn:E; simpl; rewrite E; auto.
Qed.

Lemma dict_get_set_other {V : Type} (d : list (string * V)) k v k' :
  k <> k' ->
  dict_get String.eqb (dict_set String.eqb d k v) k' = dict_get String.eqb d k'.
Proof.
  intros N. induction d as [| [k0 v0] d IH]; simpl.
  - apply String.eqb_neq in N. rewrite N. reflexivity.
  - destruct (String.eqb k0 k) eqn:E; simpl.
    + apply String.eqb_eq in E. subst k0.
      apply String.eqb_neq in N. rewrite N. reflexivity.
    + rewrite IH. reflexivity.
Qed.


Lemma append_same_suffix (a b m : string) :
  String.append a m = String.append b m -> a = b.
Proof.
  assert (L : forall x y, String.length (String.append x y)
                          = (String.length x + String.length y)%nat).
  { induction x; simpl; auto. }
  revert b; induction a as [| c a IH]; intros [| c' b]; simpl; intro H.
  - reflexivity.
  - apply (f_equal String.length) in H. simpl in H. rewrite L in H. lia.
  - apply (f_equal String.length) in H. simpl in H. rewrite L in H. lia.
  - injection H as -> H. f_equal. auto.
Qed.












(** ** The phases of the wizard *)

Ltac splits := repeat match goal with |- _ /\ _ => split end.

Lemma pick_or_given (options : odict) option_name default_message given t r :
  runs (if is_none given
        then choose_option options option_name false (PInt (-1)) default_message
        else Ret given) t r ->
  exists v, r = Ok v /\ Forall (fun ev => picking ev = true) t.
Proof.
  destruct (is_none given).
  - intros H. apply choose_option_given in H; [| reflexivity].
    destruct H as (v & -> & _ & _ & P). eauto.
  - simpl. intros [-> ->]. eauto.
Qed.

Lemma draw_or_given (candidates : list Z) (v : pyval) t r :
  runs (if pyval_eqb v (PInt (-1))
        then z <- np_random_choice candidates ;; Ret (PInt z)
        else Ret v) t r ->
  exists v', r = Ok v' /\ Forall (fun ev => picking ev = true) t.
Proof.
  destruct (pyval_eqb v (PInt (-1))); simpl.
  - intros (z & t' & -> & [-> ->]). eexists. split; [reflexivity |].
    repeat constructor.
  - intros [-> ->]. eauto.
Qed.

(** The wizard is its selection and randomizing calls, then [scene]. *)
Lemma wizard_front STYLES task layout style write_to_file robot_spawn_pose t r :
  runs (model_generation_wizard STYLES task layout style write_to_file
          robot_spawn_pose) t r ->
  exists layout' style' t1 t2,
    t = t1 ++ t2
    /\ Forall (fun ev => picking ev = true) t1
    /\ runs (scene STYLES task layout' style' write_to_file robot_spawn_pose)
         t2 r.
Proof.
  intros H. unfold model_generation_wizard in H.
  apply runs_bind in H.
  destruct H as [(e & H & _) | (l1 & ta & u1 & Ha & H & ->)];
    [apply pick_or_given in H; destruct H as (v & E & _); discriminate E |].
  apply pick_or_given in Ha. destruct Ha as (_ & _ & Pa).
  apply runs_bind in H.
  destruct H as [(e & H & _) | (s1 & tb & u2 & Hb & H & ->)];
    [apply pick_or_given in H; destruct H as (v & E & _); discriminate E |].
  apply pick_or_given in Hb. destruct Hb as (_ & _ & Pb).
  apply runs_bind in H.
  destruct H as [(e & H & _) | (l2 & tc & u3 & Hc & H & ->)];
    [apply draw_or_given in H; destruct H as (v & E & _); discriminate E |].
  apply draw_or_given in Hc. destruct Hc as (_ & _ & Pc).
  apply runs_bind in H.
  destruct H as [(e & H & _) | (s2 & td & u4 & Hd & H & ->)];
    [apply draw_or_given in H; destruct H as (v & E & _); discriminate E |].
  apply draw_or_given in Hd. destruct Hd as (_ & _ & Pd).
  exists l2, s2, (ta ++ tb ++ tc ++ td), u4.
  splits.
  - rewrite <- !app_assoc. reflexivity.
  - repeat (apply Forall_app; split); assumption.
  - exact H.
Qed.

Lemma place_objects_staging placements cfgs :
  forall xml info t r,
    runs (place_objects placements cfgs xml info) t r ->
    Forall (fun ev => staging ev = true) t
    /\ (forall a, r = Ok a -> Forall (fun ev => succeeded ev = true) t).
Proof.
  induction cfgs as [| cfg rest IH]; intros xml info t r H; simpl in H.
  - destruct H as [-> _]. split; [constructor | intros; constructor].
  - unfold getitem in H.
    destruct (dict_get String.eqb placements (cfg_name cfg)) as [pq |];
      simpl in H.
    + destruct H as (x & t' & -> & H). destruct x as [xml1 | e]; simpl in H.
      * apply IH in H. destruct H as [S K]. split.
        -- constructor; [reflexivity | exact S].
        -- intros a E. constructor; [reflexivity | eauto].
      * destruct H as [-> ->]. split.
        -- repeat constructor.
        -- intros a E. discriminate E.
    + destruct H as [-> ->]. split; [constructor | intros a E; discriminate E].
Qed.

(** [scene] is the instantiation and placement calls, then, when all of them
    went well, [assemble_and_save]. *)
Lemma scene_front STYLES task layout style write_to_file robot_spawn_pose t r :
  runs (scene STYLES task layout style write_to_file robot_spawn_pose) t r ->
  exists t2 t3,
    t = t2 ++ t3
    /\ Forall (fun ev => staging ev = true) t2
    /\ ((exists e, r = Err e /\ t3 = [])
        \/ (Forall (fun ev => succeeded ev = true) t2
            /\ exists xml info,
                 runs (assemble_and_save xml info write_to_file
                         robot_spawn_pose) t3 r)).
Proof.
  intros H. unfold scene in H. simpl in H.
  destruct H as (x & t' & -> & H). destruct x as [env | e]; simpl in H.
  - unfold getitem in H.
    destruct (dict_get pyval_eqb layouts layout); simpl in H.
    + destruct (dict_get pyval_eqb (styles STYLES) style); simpl in H.
      * apply runs_bind in H.
        destruct H as [(e & H & ->) | ([xml info] & tp & t3 & Hp & H & ->)].
        -- apply place_objects_staging in H. destruct H as [S _].
           eexists (_ :: t'), []. rewrite app_nil_r. splits.
           ++ reflexivity.
           ++ constructor; [reflexivity | exact S].
           ++ left. eauto.
        -- apply place_objects_staging in Hp. destruct Hp as [S K].
           eexists (_ :: tp), t3. splits.
           ++ reflexivity.
           ++ constructor; [reflexivity | exact S].
           ++ right. split.
              ** constructor; [reflexivity | eauto].
              ** eauto.
      * destruct H as [-> ->]. eexists [_], []. splits.
        -- reflexivity.
        -- repeat constructor.
        -- left. eauto.
    + destruct H as [-> ->]. eexists [_], []. splits.
      * reflexivity.
      * repeat constructor.
      * left. eauto.
  - destruct H as [-> ->]. eexists [_], []. splits.
    + reflexivity.
    + repeat constructor.
    + left. eauto.
Qed.

(** Every run of the wizard: selection and randomizing calls, instantiation
    and placement calls, and then a run of [assemble_and_save] unless an
    earlier call failed. *)
Lemma wizard_shape STYLES task layout style write_to_file robot_spawn_pose t r :
  runs (model_generation_wizard STYLES task layout style write_to_file
          robot_spawn_pose) t r ->
  exists t1 t2 t3,
    t = t1 ++ t2 ++ t3
    /\ Forall (fun ev => picking ev = true) t1
    /\ Forall (fun ev => staging ev = true) t2
    /\ ((exists e, r = Err e /\ t3 = [])
        \/ (Forall (fun ev => succeeded ev = true) t2
            /\ exists xml info,
                 runs (assemble_and_save xml info write_to_file
                         robot_spawn_pose) t3 r)).
Proof.
  intros H. apply wizard_front in H.
  destruct H as (layout' & style' & t1 & t' & -> & P & H).
  apply scene_front in H. destruct H as (t2 & t3 & -> & S & H).
  exists t1, t2, t3. auto.
Qed.

(** ** Cleanup, insertion, loading and saving *)

(** One step of a run: the hypothesis is taken apart at its next call, with
    a case for each kind of reply. *)
Ltac run_step H :=
  simpl in H;
  match type of H with
  | _ = [] /\ _ = _ =>
      let E := fresh "E" in destruct H as [-> E]
  | exists _ _, _ =>
      let x := fresh "x" in
      let u := fresh "u" in
      destruct H as (x & u & -> & H); simpl in x;
      try (destruct x as [x | x]);
      try match type of x with (_ * _)%type => destruct x end
  | context [getitem _ _ _] => unfold getitem in H
  | context [match dict_get ?e ?d ?k with _ => _ end] =>
      destruct (dict_get e d k) eqn:?
  | context [match ?o with Some _ => _ | None => _ end] => destruct o eqn:?
  end.

Ltac run_assemble H :=
  unfold assemble_and_save, custom_cleanups, add_stretch_to_kitchen in H;
  repeat run_step H; subst.

Ltac pick_length :=
  first [ exists 0%nat; reflexivity | exists 1%nat; reflexivity
        | exists 2%nat; reflexivity | exists 3%nat; reflexivity
        | exists 4%nat; reflexivity | exists 5%nat; reflexivity
        | exists 6%nat; reflexivity | exists 7%nat; reflexivity
        | exists 8%nat; reflexivity ].

(** The edits of the assembling state come in the order of the source: a
    run that stops early has made the first so many of them. *)
Lemma assemble_edits xml info write_to_file robot_spawn_pose t r :
  runs (assemble_and_save xml info write_to_file robot_spawn_pose) t r ->
  ((exists n, edits t = firstn n cleanup_edits)
   \/ (exists path, edits t = cleanup_edits ++ [EInsert (include_line path)]))
  /\ (forall a, r = Ok a ->
        exists path, edits t = cleanup_edits ++ [EInsert (include_line path)]).
Proof.
  intros H. run_assemble H.
  all: split;
    [ first [ left; pick_length | right; eexists; reflexivity ]
    | intros a' Ea; first [ discriminate Ea | eexists; reflexivity ] ].
Qed.

(** The pose handed to [get_absolute_path_stretch_xml]: the caller's when
    there is one, otherwise the one that came back from the removal of the
    default robot. *)
Lemma assemble_spawn xml info write_to_file robot_spawn_pose t r :
  runs (assemble_and_save xml info write_to_file robot_spawn_pose) t r ->
  (forall pose, In pose (spawn_poses t) ->
     match robot_spawn_pose with
     | Some given => pose = given
     | None =>
         exists xml0 xml1,
           In (XmlRemoveTagByName xml0 "body" "robot0_base",
               RCut (Ok (xml1, pose))) t
     end)
  /\ (forall model xml' info', r = Ok (model, xml', info') ->
        exists pose path xml1,
          spawn_poses t = [pose]
          /\ In (GetAbsolutePathStretchXml pose, RStr (Ok path)) t
          /\ In (InsertLineAfterMujocoTag xml1 (include_line path),
                 RDoc (Ok xml')) t).
Proof.
  intros H. destruct robot_spawn_pose as [given |]; run_assemble H.
  all: split;
    [ simpl; intros pose I;
      repeat match goal with
             | I : _ \/ _ |- _ => destruct I as [I | I]
             | I : False |- _ => destruct I
             end;
      subst;
      first [ reflexivity
            | do 2 eexists; simpl; do 7 right; left; reflexivity ]
    | intros m' x' i' Ea;
      first [ discriminate Ea
            | injection Ea as -> -> ->; do 3 eexists; simpl;
              split; [reflexivity |];
              split; [do 8 right; left; reflexivity
                     | do 9 right; left; reflexivity] ] ].
Qed.

(** A write, when there is one, is the last call of the assembling state: it
    comes right after the load of the document it writes, which is the
    document the insertion returned, and every call before it went well. *)
Lemma assemble_writes xml info write_to_file robot_spawn_pose t r :
  runs (assemble_and_save xml info write_to_file robot_spawn_pose) t r ->
  (writes t = [] /\ (write_to_file = None \/ exists e, r = Err e))
  \/ (exists path t0 xml' model x p xml1,
        write_to_file = Some path
        /\ t = t0 ++ [ (FromXmlString xml', RModel (Ok model));
                       (WriteFile path xml', RUnit x) ]
        /\ writes t0 = []
        /\ Forall (fun ev => succeeded ev = true) t0
        /\ edits t0 = cleanup_edits ++ [EInsert (include_line p)]
        /\ In (InsertLineAfterMujocoTag xml1 (include_line p), RDoc (Ok xml'))
             t0
        /\ r = match x with
               | Ok _ => Ok (model, xml', info)
               | Err e => Err e
               end).
Proof.
  intros H. run_assemble H.
  all: first
    [ left; split; [reflexivity |]; first [left; reflexivity | right; eexists; reflexivity]
    | right; eexists; eexists [_; _; _; _; _; _; _; _; _; _]; do 5 eexists;
      split; [reflexivity |];
      split; [reflexivity |];
      split; [reflexivity |];
      split; [repeat constructor |];
      split; [reflexivity |];
      split; [simpl; do 9 right; left; reflexivity | reflexivity] ].
Qed.

(** The removal of the default robot is a call of the assembling state
    alone. *)
Lemma picking_not_removal t xml0 tag name x :
  Forall (fun ev => picking ev = true) t ->
  ~ In (XmlRemoveTagByName xml0 tag name, x) t.
Proof.
  intros F I. rewrite Forall_forall in F. apply F in I. discriminate I.
Qed.

Lemma staging_not_removal t xml0 tag name x :
  Forall (fun ev => staging ev = true) t ->
  ~ In (XmlRemoveTagByName xml0 tag name, x) t.
Proof.
  intros F I. rewrite Forall_forall in F. apply F in I. discriminate I.
Qed.

Ltac split_in I :=
  simpl in I;
  repeat match type of I with
         | _ \/ _ => destruct I as [I | I]
         end;
  try contradiction; try discriminate I.

(** With a pose from the caller that carries [pos] and [quat], a run that got
    through the removal of the default robot asks for the path of the
    caller's pose, whatever pose the removal returned. *)
Lemma assemble_given_pose xml info write_to_file given t r xml0 xml1 pose :
  dict_get String.eqb given "pos" <> None ->
  dict_get String.eqb given "quat" <> None ->
  runs (assemble_and_save xml info write_to_file (Some given)) t r ->
  In (XmlRemoveTagByName xml0 "body" "robot0_base", RCut (Ok (xml1, pose))) t ->
  spawn_poses t = [given].
Proof.
  intros P Q H I. run_assemble H.
  all: split_in I.
  all: try congruence.
  all: reflexivity.
Qed.

(** ** Traces in parts *)

Lemma edits_app t1 t2 : edits (t1 ++ t2) = edits t1 ++ edits t2.
Proof.
  induction t1 as [| ev t1 IH]; simpl; [reflexivity |].
  destruct (edit_of ev); simpl; rewrite IH; reflexivity.
Qed.

Lemma spawn_poses_app t1 t2 :
  spawn_poses (t1 ++ t2) = spawn_poses t1 ++ spawn_poses t2.
Proof.
  induction t1 as [| [c x] t1 IH]; simpl; [reflexivity |].
  destruct c; simpl; rewrite IH; reflexivity.
Qed.

Lemma writes_app t1 t2 : writes (t1 ++ t2) = writes t1 ++ writes t2.
Proof.
  apply filter_app.
Qed.

Lemma picking_quiet t :
  Forall (fun ev => picking ev = true) t ->
  edits t = [] /\ writes t = [] /\ spawn_poses t = []
  /\ Forall (fun ev => stage_ok ev = true) t.
Proof.
  induction 1 as [| [c x] t P _ IH]; simpl; [repeat split; constructor |].
  destruct IH as (E & W & S & K).
  destruct c; try discriminate P; simpl; repeat split; auto;
    constructor; auto.
Qed.

Lemma staging_quiet t :
  Forall (fun ev => staging ev = true) t ->
  (exists names, edits t = map (EPlace "body") names)
  /\ writes t = [] /\ spawn_poses t = [].
Proof.
  induction 1 as [| [c x] t P _ IH]; simpl.
  - split; [exists []; reflexivity | auto].
  - destruct IH as ((names & E) & W & S).
    destruct c; try discriminate P; simpl.
    + repeat split; eauto.
    + unfold staging in P. simpl in P. apply String.eqb_eq in P. subst tag.
      repeat split; auto. exists (name :: names). simpl. rewrite E.
      reflexivity.
Qed.


(** A list without inserts cannot be cut at one, and a list whose only
    insert is its last entry has nothing after it. *)
Lemma no_insert_no_cut (l pre post : list edit) (e : edit) :
  Forall (fun x => is_insert x = false) l ->
  is_insert e = true ->
  l = pre ++ e :: post -> False.
Proof.
  intros F I E. subst l. apply Forall_app in F. destruct F as [_ F].
  inversion F as [| x l' X _]; subst. congruence.
Qed.

Lemma insert_is_last (l pre post : list edit) (e last : edit) :
  Forall (fun x => is_insert x = false) l ->
  is_insert e = true ->
  l ++ [last] = pre ++ e :: post -> post = [].
Proof.
  intros F I. revert pre. induction l as [| x l IH]; intros pre E.
  - destruct pre as [| y pre]; simpl in E.
    + injection E as _ E. auto.
    + injection E as _ E. destruct pre; discriminate E.
  - inversion F as [| x' l' X F']; subst.
    destruct pre as [| y pre]; simpl in E.
    + injection E as E _. congruence.
    + injection E as _ E. eauto.
Qed.

Lemma places_no_insert (names : list string) :
  Forall (fun x => is_insert x = false) (map (EPlace "body") names).
Proof.
  apply Forall_map. apply Forall_forall. reflexivity.
Qed.

Lemma cleanup_prefix_no_insert (n : nat) :
  Forall (fun x => is_insert x = false) (firstn n cleanup_edits).
Proof.
  do 9 (destruct n as [| n]; [repeat constructor |]).
  simpl. repeat constructor.
Qed.

(** ** The wizard as a whole *)

(** C4.  In every run the edits of the document come in one fixed order:
    the placements, then the four colour replacements, then the removal of
    the actuator, sensor and option elements, then the removal of the default
    robot body (which returns its pose), and last the insertion of the
    inclusion directive.  A run that stops early has made a prefix of this
    list; a run that returns has made all of it; and no edit at all comes
    after the insertion. *)
Theorem edits_in_fixed_order STYLES task layout style write_to_file
    robot_spawn_pose t r :
  runs (model_generation_wizard STYLES task layout style write_to_file
          robot_spawn_pose) t r ->
  (exists names,
     (exists n,
        edits t = map (EPlace "body") names ++ firstn n cleanup_edits)
     \/ (exists path,
           edits t = map (EPlace "body") names ++ cleanup_edits
                     ++ [EInsert (include_line path)]))
  /\ (forall a, r = Ok a ->
        exists names path,
          edits t = map (EPlace "body") names ++ cleanup_edits
                    ++ [EInsert (include_line path)])
  /\ (forall pre line post,
        edits t = pre ++ EInsert line :: post -> post = []).
Proof.
  intros H. apply wizard_shape in H.
  destruct H as (t1 & t2 & t3 & -> & P & S & H).
  apply picking_quiet in P. destruct P as (E1 & _).
  apply staging_quiet in S. destruct S as ((names & E2) & _).
  rewrite !edits_app, E1, E2. simpl.
  assert (K : ((exists n, edits t3 = firstn n cleanup_edits)
               \/ (exists path,
                     edits t3 = cleanup_edits ++ [EInsert (include_line path)]))
              /\ (forall a, r = Ok a ->
                    exists path,
                      edits t3 = cleanup_edits ++ [EInsert (include_line path)])).
  { destruct H as [(e & -> & ->) | (_ & xml & info & H)].
    - split; [left; exists 0%nat; reflexivity | intros a E; discriminate E].
    - eapply assemble_edits; eauto. }
  destruct K as [K1 K2]. splits.
  - exists names. destruct K1 as [(n & ->) | (path & ->)];
      [left; exists n; reflexivity | right; exists path; reflexivity].
  - intros a E. destruct (K2 a E) as (path & ->).
    exists names, path. reflexivity.
  - intros pre line post E.
    destruct K1 as [(n & K) | (path & K)]; rewrite K in E.
    + exfalso. eapply no_insert_no_cut; [| | exact E]; [| reflexivity].
      apply Forall_app. split;
        [apply places_no_insert | apply cleanup_prefix_no_insert].
    + rewrite app_assoc in E.
      eapply insert_is_last; [| | exact E]; [| reflexivity].
      apply Forall_app. split; [apply places_no_insert |].
      apply (cleanup_prefix_no_insert 8).
Qed.



(** C10.  [main] always hands the wizard the pose with [pos]
    [2.26 -1.43 0.0] and [quat] [0 0 0 1]: in every run of [main] that is the
    only pose a path is asked for; a run that got through the removal of the
    default robot asks for the path of exactly that pose, whatever pose the
    removal returned; and a run that returns has inserted the inclusion
    line of the path it got for that pose. *)
Theorem main_spawns_at_fixed_pose STYLES task layout style write_to_file t r :
  runs (main STYLES task layout style write_to_file) t r ->
  (forall pose, In pose (spawn_poses t) ->
     pose = [("pos", "2.26 -1.43 0.0"); ("quat", "0 0 0 1")])
  /\ (forall xml0 xml1 captured,
        In (XmlRemoveTagByName xml0 "body" "robot0_base",
            RCut (Ok (xml1, captured))) t ->
        spawn_poses t = [[("pos", "2.26 -1.43 0.0"); ("quat", "0 0 0 1")]])
  /\ (r = Ok tt ->
        exists path xml1 xml,
          spawn_poses t = [[("pos", "2.26 -1.43 0.0"); ("quat", "0 0 0 1")]]
          /\ In (GetAbsolutePathStretchXml
                   [("pos", "2.26 -1.43 0.0"); ("quat", "0 0 0 1")],
                 RStr (Ok path)) t
          /\ In (InsertLineAfterMujocoTag xml1 (include_line path),
                 RDoc (Ok xml)) t).
Proof.
  intros H. unfold main in H. apply runs_bind in H.
  assert (W : forall tw rw,
            runs (model_generation_wizard STYLES task layout style
                    write_to_file (Some cli_spawn_pose)) tw rw ->
            (forall pose, In pose (spawn_poses tw) -> pose = cli_spawn_pose)
            /\ (forall xml0 xml1 captured,
                  In (XmlRemoveTagByName xml0 "body" "robot0_base",
                      RCut (Ok (xml1, captured))) tw ->
                  spawn_poses tw = [cli_spawn_pose])
            /\ (forall model xml info, rw = Ok (model, xml, info) ->
                  exists path xml1,
                    spawn_poses tw = [cli_spawn_pose]
                    /\ In (GetAbsolutePathStretchXml cli_spawn_pose,
                           RStr (Ok path)) tw
                    /\ In (InsertLineAfterMujocoTag xml1 (include_line path),
                           RDoc (Ok xml)) tw)).
  { intros tw rw Hw. apply wizard_shape in Hw.
    destruct Hw as (t1 & t2 & t3 & -> & P & S & Hw).
    pose proof (fun xml0 tag name x =>
                  picking_not_removal t1 xml0 tag name x P) as N1.
    pose proof (fun xml0 tag name x =>
                  staging_not_removal t2 xml0 tag name x S) as N2.
    apply picking_quiet in P. destruct P as (_ & _ & P1 & P').
    apply staging_quiet in S. destruct S as (S' & _ & P2).
    rewrite !spawn_poses_app, P1, P2. simpl.
    destruct Hw as [(e & -> & ->) | (_ & xml & info & Hw)].
    - splits; [intros pose [] | | intros m x i E; discriminate E].
      intros xml0 xml1 captured I. exfalso.
      rewrite app_nil_r in I. apply in_app_or in I. destruct I as [I | I].
      + eapply N1; eauto.
      + eapply N2; eauto.
    - pose proof Hw as G. apply assemble_spawn in Hw. destruct Hw as [A B].
      splits; [exact A | |].
      + intros xml0 xml1 captured I.
        apply in_app_or in I. destruct I as [I | I];
          [exfalso; eapply N1; eauto |].
        apply in_app_or in I. destruct I as [I | I];
          [exfalso; eapply N2; eauto |].
        eapply assemble_given_pose; eauto; discriminate.
      + intros m x i E.
        destruct (B m x i E) as (pose & path & xml1 & B1 & B2 & B3).
        assert (pose = cli_spawn_pose) as ->.
        { apply A. rewrite B1. simpl. auto. }
        exists path, xml1. splits; [exact B1 | |];
          apply in_or_app; right; apply in_or_app; right; assumption. }
  destruct H as [(e & H & ->) | ([[model xml] info] & tw & t2 & Hw & H & ->)].
  - apply W in H. destruct H as (A & C & _). splits; [exact A | exact C |].
    intros E. discriminate E.
  - apply W in Hw. destruct Hw as (A & C & B).
    assert (Q : spawn_poses t2 = []
                /\ forall xml0 tag name x,
                     ~ In (XmlRemoveTagByName xml0 tag name, x) t2).
    { simpl in H. destruct H as (x & u & -> & H). simpl.
      destruct x as [s | e]; simpl in H.
      - destruct H as (y & u' & -> & H). destruct y; simpl in H;
          destruct H as [-> _]; (split; [reflexivity |]);
          intros xml0 tag name x [E | [E | []]]; discriminate E.
      - destruct H as [-> _]. split; [reflexivity |].
        intros xml0 tag name x [E | []]; discriminate E. }
    destruct Q as [Q Q'].
    rewrite spawn_poses_app, Q, app_nil_r. splits; [exact A | |].
    + intros xml0 xml1 captured I. apply in_app_or in I.
      destruct I as [I | I]; [eapply C; eauto | exfalso; eapply Q'; eauto].
    + intros _.
      destruct (B model xml info eq_refl) as (path & xml1 & B1 & B2 & B3).
      exists path, xml1, xml. splits; [exact B1 | |];
        apply in_or_app; left; assumption.
Qed.

(** C5 on the style.  With the style [-1] and a layout already chosen, the
    first call of every run draws the style from [range(11)], the ids 0 to
    10, and the environment is made for the id drawn: the id 11, which the
    help of [--style] counts among the styles, is not among the candidates. *)
Theorem random_style_from_eleven_ids STYLES task layout write_to_file
    robot_spawn_pose t r :
  is_none layout = false ->
  pyval_eqb layout (PInt (-1)) = false ->
  runs (model_generation_wizard STYLES task layout (PInt (-1)) write_to_file
          robot_spawn_pose) t r ->
  exists z x t',
    t = (RandomChoice [0; 1; 2; 3; 4; 5; 6; 7; 8; 9; 10]%Z, RChoice z)
        :: (RobosuiteMake task layout (PInt z), REnv x) :: t'
    /\ ~ In 11%Z [0; 1; 2; 3; 4; 5; 6; 7; 8; 9; 10]%Z.
Proof.
  intros N L H. unfold model_generation_wizard in H.
  destruct layout as [| zl | sl]; [discriminate N | |]; simpl in L, H;
    try rewrite L in H; simpl in H;
    destruct H as (z & u & -> & H); simpl in H.
  all: 
destruct H as (x & u' & -> & H);
    exists z, x, u'; (split; [reflexivity |]);
    simpl; intros I;
    repeat match goal with
           | I : _ \/ _ |- _ => destruct I as [I | I]
           end; try discriminate I; exact I.
Qed.

(** The layout, for comparison: with the layout [-1] and a style already
    chosen, the first call draws the layout from [range(10)], the ids 0 to
    9. *)
Lemma random_layout_from_ten_ids STYLES task style write_to_file
    robot_spawn_pose t r :
  is_none style = false ->
  runs (model_generation_wizard STYLES task (PInt (-1)) style write_to_file
          robot_spawn_pose) t r ->
  exists z t',
    t = (RandomChoice [0; 1; 2; 3; 4; 5; 6; 7; 8; 9]%Z, RChoice z) :: t'.
Proof.
  intros N H. unfold model_generation_wizard in H.
  rewrite N in H. simpl in H.
  destruct H as (z & u & -> & H). eauto.
Qed.

(** ** The theorems on the small kitchen *)

Lemma edits_in_fixed_order_witness :
  (exists names,
     (exists n,
        edits (fst small_run)
        = map (EPlace "body") names ++ firstn n cleanup_edits)
     \/ (exists path,
           edits (fst small_run)
           = map (EPlace "body") names ++ cleanup_edits
             ++ [EInsert (include_line path)]))
  /\ (forall a, snd small_run = Ok a ->
        exists names path,
          edits (fst small_run)
          = map (EPlace "body") names ++ cleanup_edits
            ++ [EInsert (include_line path)])
  /\ (forall pre line post,
        edits (fst small_run) = pre ++ EInsert line :: post -> post = []).
Proof.
  apply (edits_in_fixed_order small_styles "PnPCounterToCab" PNone (PInt 1)
           (Some "/tmp/kitchen.xml") None (fst small_run) (snd small_run)).
  exact (exec_runs _ _).
Defined.



(** [main] on the small kitchen returns; the removal of the default robot
    gave back the pose [0.5 -0.8 0], [1 0 0 0], and the one path asked for is
    the path of the fixed pose. *)
Lemma main_spawns_at_fixed_pose_witness :
  snd small_main_run = Ok tt
  /\ (exists xml0 xml1,
        In (XmlRemoveTagByName xml0 "body" "robot0_base",
            RCut (Ok (xml1, [("pos", "0.5 -0.8 0"); ("quat", "1 0 0 0")])))
          (fst small_main_run))
  /\ spawn_poses (fst small_main_run)
     = [[("pos", "2.26 -1.43 0.0"); ("quat", "0 0 0 1")]]
  /\ exists path xml1 xml,
       In (GetAbsolutePathStretchXml
             [("pos", "2.26 -1.43 0.0"); ("quat", "0 0 0 1")],
           RStr (Ok path)) (fst small_main_run)
       /\ In (InsertLineAfterMujocoTag xml1 (include_line path),
              RDoc (Ok xml)) (fst small_main_run).
Proof.
  destruct (main_spawns_at_fixed_pose small_styles "PnPCounterToCab" (PInt 2)
              (PInt 1) None (fst small_main_run) (snd small_main_run)
              (exec_runs _ _)) as (A & B & C).
  assert (I : exists xml0 xml1,
            In (XmlRemoveTagByName xml0 "body" "robot0_base",
                RCut (Ok (xml1, [("pos", "0.5 -0.8 0"); ("quat", "1 0 0 0")])))
              (fst small_main_run)).
  { vm_compute. do 2 eexists. do 9 right. left. reflexivity. }
  split; [reflexivity |]. split; [exact I |].
  destruct I as (xml0 & xml1 & I). split; [exact (B _ _ _ I) |].
  destruct (C eq_refl) as (path & x1 & x & _ & C1 & C2).
  exists path, x1, x. split; assumption.
Defined.

Lemma random_style_from_eleven_ids_witness :
  exists z x t',
    fst small_random_run
    = (RandomChoice [0; 1; 2; 3; 4; 5; 6; 7; 8; 9; 10]%Z, RChoice z)
      :: (RobosuiteMake "PnPCounterToCab" (PInt 2) (PInt z), REnv x) :: t'
    /\ ~ In 11%Z [0; 1; 2; 3; 4; 5; 6; 7; 8; 9; 10]%Z.
Proof.
  apply (random_style_from_eleven_ids small_styles "PnPCounterToCab" (PInt 2)
           None None (fst small_random_run) (snd small_random_run)).
  - reflexivity.
  - reflexivity.
  - exact (exec_runs _ _).
Defined.

(** The small run does return, with the document it wrote. *)
Example small_run_returns :
  exists xml info,
    snd small_run = Ok (mj_model 1, xml, info)
    /\ last (fst small_run) (Input "", RStr (Ok ""))
       = (WriteFile "/tmp/kitchen.xml" xml, RUnit (Ok tt))
    /\ spawn_poses (fst small_run)
       = [[("pos", "0.5 -0.8 0"); ("quat", "1 0 0 0")]].
Proof.
  do 2 eexists. split; [vm_compute; reflexivity |].
  split; vm_compute; reflexivity.
Qed.

(** * Further properties *)

(** ** Failures surface as they are *)

Lemma Orderly_ret {A : Type} (a : A) : Orderly (Ret a).
Proof.
  intros t r [-> ->]. left. split; [constructor | left; reflexivity].
Qed.

Lemma Orderly_key_error {A : Type} : Orderly (@Raise A KeyError).
Proof.
  intros t r [-> ->]. left. split; [constructor | right; reflexivity].
Qed.

Lemma Orderly_bind {A B : Type} (m : prog A) (f : A -> prog B) :
  Orderly m -> (forall a, Orderly (f a)) -> Orderly (bind m f).
Proof.
  intros Hm Hf t r H. apply runs_bind in H.
  destruct H as [(e & H & ->) | (a & t1 & t2 & H1 & H2 & ->)].
  - apply Hm in H. exact H.
  - apply Hm in H1. apply Hf in H2. simpl in H1.
    destruct H1 as [[F1 _] | (t0 & c & x & e & _ & _ & _ & E)];
      [| discriminate E].
    destruct H2 as [[F2 O] | (t0 & c & x & e & -> & F2 & R & O)].
    + left. split; [apply Forall_app; auto | exact O].
    + right. exists (t1 ++ t0), c, x, e. splits; auto.
      * rewrite app_assoc. reflexivity.
      * apply Forall_app; auto.
Qed.

Lemma Orderly_getitem {K V : Type} (eqb : K -> K -> bool) (d : list (K * V)) k :
  Orderly (getitem eqb d k).
Proof.
  unfold getitem. destruct (dict_get eqb d k);
    [apply Orderly_ret | apply Orderly_key_error].
Qed.

(** A single call whose failure is raised. *)
Ltac orderly_call :=
  let t := fresh "t" in
  let r := fresh "r" in
  let x := fresh "x" in
  let u := fresh "u" in
  let H := fresh "H" in
  intros t r H; simpl in H; destruct H as (x & u & -> & H);
  destruct x; simpl in H; destruct H as [-> ->];
  [ left; split; [repeat constructor | left; reflexivity]
  | right; eexists [], _, _, _; splits;
    [reflexivity | constructor | reflexivity | reflexivity] ].

Lemma Orderly_input prompt : Orderly (input prompt).
Proof. orderly_call. Qed.

Lemma Orderly_robosuite_make env_name layout style :
  Orderly (robosuite_make env_name layout style).
Proof. orderly_call. Qed.

Lemma Orderly_replace xml tag attribute pattern replacement :
  Orderly (replace_xml_tag_value xml tag attribute pattern replacement).
Proof. orderly_call. Qed.

Lemma Orderly_remove_subelement xml subelement :
  Orderly (xml_remove_subelement xml subelement).
Proof. orderly_call. Qed.

Lemma Orderly_remove_tag_by_name xml tag name :
  Orderly (xml_remove_tag_by_name xml tag name).
Proof. orderly_call. Qed.

Lemma Orderly_modify_body_pos xml tag name pos quat :
  Orderly (xml_modify_body_pos xml tag name pos quat).
Proof. orderly_call. Qed.

Lemma Orderly_insert_line xml line :
  Orderly (insert_line_after_mujoco_tag xml line).
Proof. orderly_call. Qed.

Lemma Orderly_get_path pose : Orderly (get_absolute_path_stretch_xml pose).
Proof. orderly_call. Qed.

Lemma Orderly_from_xml_string xml : Orderly (from_xml_string xml).
Proof. orderly_call. Qed.

Lemma Orderly_write_file path content : Orderly (write_file path content).
Proof. orderly_call. Qed.

Lemma Orderly_untidybot instruction model objects :
  Orderly (untidybot instruction model objects).
Proof. orderly_call. Qed.

Lemma Orderly_picked {A : Type} (p : prog A) :
  (forall t r, runs p t r ->
     exists v, r = Ok v /\ Forall (fun ev => picking ev = true) t) ->
  Orderly p.
Proof.
  intros P t r H. apply P in H. destruct H as (v & -> & F).
  left. split; [| left; reflexivity].
  apply picking_quiet in F. tauto.
Qed.

Lemma Orderly_place_objects placements cfgs :
  forall xml info, Orderly (place_objects placements cfgs xml info).
Proof.
  induction cfgs as [| cfg rest IH]; intros xml info.
  - apply Orderly_ret.
  - cbn [place_objects].
    apply Orderly_bind; [apply Orderly_getitem | intros pq].
    apply Orderly_bind; [apply Orderly_modify_body_pos | intros xml1].
    apply IH.
Qed.

Lemma Orderly_custom_cleanups xml : Orderly (custom_cleanups xml).
Proof.
  unfold custom_cleanups.
  do 7 (apply Orderly_bind;
        [first [apply Orderly_replace | apply Orderly_remove_subelement]
        | intros ?]).
  apply Orderly_bind; [apply Orderly_remove_tag_by_name | intros [x pose]].
  apply Orderly_ret.
Qed.

Lemma Orderly_add_stretch xml pose : Orderly (add_stretch_to_kitchen xml pose).
Proof.
  unfold add_stretch_to_kitchen.
  apply Orderly_bind; [apply Orderly_getitem | intros _].
  apply Orderly_bind; [apply Orderly_getitem | intros _].
  apply Orderly_bind; [apply Orderly_get_path | intros path].
  apply Orderly_insert_line.
Qed.

Lemma Orderly_wizard STYLES task layout style write_to_file robot_spawn_pose :
  Orderly (model_generation_wizard STYLES task layout style write_to_file
             robot_spawn_pose).
Proof.
  unfold model_generation_wizard.
  apply Orderly_bind;
    [apply Orderly_picked; intros t r; apply pick_or_given | intros layout1].
  apply Orderly_bind;
    [apply Orderly_picked; intros t r; apply pick_or_given | intros style1].
  apply Orderly_bind;
    [apply Orderly_picked; intros t r; apply draw_or_given | intros layout2].
  apply Orderly_bind;
    [apply Orderly_picked; intros t r; apply draw_or_given | intros style2].
  apply Orderly_bind; [apply Orderly_robosuite_make | intros env].
  apply Orderly_bind; [apply Orderly_getitem | intros _].
  apply Orderly_bind; [apply Orderly_getitem | intros _].
  apply Orderly_bind; [apply Orderly_place_objects | intros [xml info]].
  apply Orderly_bind; [apply Orderly_custom_cleanups | intros [xml1 pose]].
  apply Orderly_bind; [apply Orderly_add_stretch | intros xml2].
  apply Orderly_bind; [apply Orderly_from_xml_string | intros model].
  apply Orderly_bind;
    [destruct write_to_file; [apply Orderly_write_file | apply Orderly_ret]
    | intros _].
  apply Orderly_ret.
Qed.

(** X1.  The wizard neither swallows nor rewrites a failure.  In every run,
    either every call went well (a prompt or parse the selector recovers
    from counts as well) and the wizard returns or raises the [KeyError] of
    one of its own lookups, or the last call of the run raised, every call
    before it went well, and the wizard raises that same exception. *)
Theorem wizard_failures_surface STYLES task layout style write_to_file
    robot_spawn_pose t r :
  runs (model_generation_wizard STYLES task layout style write_to_file
          robot_spawn_pose) t r ->
  (Forall (fun ev => stage_ok ev = true) t
   /\ ((exists a, r = Ok a) \/ r = Err KeyError))
  \/ (exists t0 c x e,
        t = t0 ++ [(c, x)]
        /\ Forall (fun ev => stage_ok ev = true) t0
        /\ raised x = Some e
        /\ r = Err e).
Proof.
  intros H. apply Orderly_wizard in H.
  destruct H as [[F O] | (t0 & c & x & e & -> & F & R & O)].
  - left. split; [exact F |].
    destruct r as [a | e]; simpl in O.
    + left. eauto.
    + right. destruct O as [O | O]; [discriminate O | injection O as ->].
      reflexivity.
  - right. exists t0, c, x, e. splits; auto.
    destruct r as [a | e']; simpl in O; [discriminate O | injection O as ->].
    reflexivity.
Qed.

(** ** More on the option selector *)

(** X2.  With a default given, a failing [input] is recovered from: the
    selector returns the default, and [int] is never called. *)
Theorem choose_option_input_failure options option_name show_keys default
    default_message prompt e t r :
  is_none default = false ->
  runs (choose_option options option_name show_keys default default_message) t r ->
  In (Input prompt, RStr (Err e)) t ->
  r = Ok default /\ t = [(Input prompt, RStr (Err e))].
Proof.
  intros D H I. unfold choose_option in H. rewrite D in H. simpl in H.
  destruct H as (x & t1 & -> & H). destruct x as [s | e']; simpl in H.
  - exfalso. destruct I as [E | I]; [discriminate E |].
    destruct H as (y & t2 & -> & H).
    destruct I as [E | I]; [discriminate E |].
    destruct y as [n | e']; simpl in H.
    + unfold getindex in H.
      destruct (list_index (dict_keys options)
                  (Z.min (Z.max n 0) (len options - 1))); simpl in H.
      * destruct H as [-> _]. destruct I.
      * apply fallback_silent in H. subst. destruct I.
    + apply fallback_silent in H. subst. destruct I.
  - apply (fallback_given _ _ _ _ D) in H. destruct H as [-> ->].
    destruct I as [E | []]. injection E as -> ->. auto.
Qed.

(** X3.  Without a default the selector looks up [options[0]] before it
    prompts: on a mapping without the key 0 it raises [KeyError] and makes no
    call at all. *)
Theorem choose_option_no_default_no_zero options option_name show_keys
    default_message t r :
  dict_get pyval_eqb options (PInt 0) = None ->
  runs (choose_option options option_name show_keys PNone default_message) t r ->
  t = [] /\ r = Err KeyError.
Proof.
  intros Z H. unfold choose_option, getitem in H. simpl in H.
  rewrite Z in H. simpl in H. exact H.
Qed.

(** X4.  Without a default, on a mapping with the key 0, the fallback is the
    value stored under 0, the label and not the key: the selector never
    raises, returns that label when the text does not parse, and otherwise
    returns a key or that label. *)
Theorem choose_option_no_default_label options option_name show_keys
    default_message label t r :
  dict_get pyval_eqb options (PInt 0) = Some label ->
  runs (choose_option options option_name show_keys PNone default_message) t r ->
  exists choice,
    r = Ok choice
    /\ (forall s e, In (Int s, RInt (Err e)) t -> choice = label)
    /\ (In choice (dict_keys options) \/ choice = label).
Proof.
  intros Z H. unfold choose_option, getitem in H. simpl in H.
  rewrite Z in H. simpl in H.
  assert (F : forall t' r',
            runs (if is_none label then Ret label else Ret label) t' r' ->
            t' = [] /\ r' = Ok label).
  { destruct (is_none label); simpl; auto. }
  destruct H as (x & t1 & -> & H). destruct x as [s | e]; simpl in H.
  - destruct H as (y & t2 & -> & H). destruct y as [n | e]; simpl in H.
    + unfold getindex in H.
      destruct (list_index (dict_keys options)
                  (Z.min (Z.max n 0) (len options - 1))) as [key |] eqn:K;
        simpl in H.
      * destruct H as [-> ->]. exists key. splits; auto.
        -- intros s0 e [E | [E | []]]; discriminate E.
        -- left. eapply list_index_In; eauto.
      * apply F in H. destruct H as [-> ->]. exists label. auto.
    + apply F in H. destruct H as [-> ->]. exists label. auto.
  - apply F in H. destruct H as [-> ->]. exists label. auto.
Qed.

Lemma nth_error_last {A : Type} (l : list A) (d : A) :
  l <> [] -> nth_error l (List.length l - 1) = Some (last l d).
Proof.
  induction l as [| a l IH]; intros N; [contradiction |].
  destruct l as [| b l]; [reflexivity |].
  assert (E : (List.length (a :: b :: l) - 1 = S (List.length (b :: l) - 1))%nat)
    by (simpl; lia).
  rewrite E. change (last (a :: b :: l) d) with (last (b :: l) d).
  simpl nth_error. apply IH. discriminate.
Qed.

(** X5.  The two ends of the clamp.  On a non-empty mapping, called with a
    default or holding the key 0, the run in which the text typed parses as
    [n] returns: the first key when [n] is negative or zero, the last key
    when [n] is at or beyond the last index, and the key at [n] in between;
    and every run in which the text parsed as [n] returns that key. *)
Theorem choose_option_ends options option_name show_keys default
    default_message s n :
  options <> [] ->
  is_none default = false
  \/ (exists label, dict_get pyval_eqb options (PInt 0) = Some label) ->
  exists prompt key,
    runs (choose_option options option_name show_keys default default_message)
      [(Input prompt, RStr (Ok s)); (Int s, RInt (Ok n))] (Ok key)
    /\ (forall t r,
          runs (choose_option options option_name show_keys default
                  default_message) t r ->
          In (Int s, RInt (Ok n)) t ->
          r = Ok key)
    /\ ((n <= 0)%Z -> hd_error (dict_keys options) = Some key)
    /\ ((len options - 1 <= n)%Z -> key = last (dict_keys options) PNone)
    /\ ((0 <= n < len options)%Z ->
        nth_error (dict_keys options) (Z.to_nat n) = Some key).
Proof.
  intros N D.
  destruct (choose_option_selects options option_name show_keys default
              default_message s n N D) as (prompt & key & K & R).
  exists prompt, key. split; [exact R |].
  assert (L : (0 < len options)%Z).
  { unfold len. destruct options; [contradiction | simpl; lia]. }
  assert (LK : List.length (dict_keys options) = List.length options).
  { unfold dict_keys. apply length_map. }
  splits.
  - intros t r H I. unfold choose_option in H. apply runs_bind in H.
    destruct H as [(e & H & ->) | (d & t1 & t2 & H1 & H2 & ->)].
    + apply fallback_silent in H. subst. destruct I.
    + apply fallback_silent in H1. subst. simpl in I.
      destruct (try_clamps options _ _ s n t2 r N
                  (fun e t' r' => fallback_silent options d t' r') H2 I)
        as (key' & K' & ->).
      congruence.
  - intros B. replace (Z.min (Z.max n 0) (len options - 1)) with 0%Z in K
      by lia.
    simpl in K. destruct (dict_keys options); simpl in *; congruence.
  - intros B.
    replace (Z.min (Z.max n 0) (len options - 1)) with (len options - 1)%Z
      in K by lia.
    unfold len in K.
    replace (Z.to_nat (Z.of_nat (List.length options) - 1))
      with (List.length (dict_keys options) - 1)%nat in K by lia.
    rewrite (nth_error_last _ PNone) in K.
    + congruence.
    + destruct options; [contradiction | discriminate].
  - intros B. replace (Z.min (Z.max n 0) (len options - 1)) with n in K
      by lia.
    exact K.
Qed.

(** ** Which ids the environment is made for *)

Lemma makes_app t1 t2 : makes (t1 ++ t2) = makes t1 ++ makes t2.
Proof.
  induction t1 as [| [c x] t1 IH]; simpl; [reflexivity |].
  destruct c; simpl; rewrite IH; reflexivity.
Qed.

Lemma prompts_app t1 t2 : prompts (t1 ++ t2) = prompts t1 ++ prompts t2.
Proof.
  induction t1 as [| [c x] t1 IH]; simpl; [reflexivity |].
  destruct c; simpl; rewrite IH; reflexivity.
Qed.

Lemma draws_app t1 t2 : draws (t1 ++ t2) = draws t1 ++ draws t2.
Proof.
  induction t1 as [| [c x] t1 IH]; simpl; [reflexivity |].
  destruct c; simpl; rewrite IH; reflexivity.
Qed.

(** The selector, given a default, prompts exactly once. *)
Lemma choose_option_prompts options option_name show_keys default
    default_message t r :
  is_none default = false ->
  is_none default_message = false ->
  runs (choose_option options option_name show_keys default default_message) t r ->
  prompts t = [prompt_text (len options - 1) default_message]
  /\ makes t = [] /\ draws t = [].
Proof.
  intros D M H. unfold choose_option in H. rewrite D, M in H. simpl in H.
  destruct H as (x & t1 & -> & H). destruct x as [s | e]; simpl in H.
  - destruct H as (y & t2 & -> & H). destruct y as [n | e]; simpl in H.
    + unfold getindex in H.
      destruct (list_index (dict_keys options)
                  (Z.min (Z.max n 0) (len options - 1))); simpl in H.
      * destruct H as [-> _]. auto.
      * apply fallback_silent in H. subst. auto.
    + apply fallback_silent in H. subst. auto.
  - apply fallback_silent in H. subst. auto.
Qed.

Lemma pick_detail (options : odict) option_name default_message given t r :
  is_none default_message = false ->
  runs (if is_none given
        then choose_option options option_name false (PInt (-1)) default_message
        else Ret given) t r ->
  exists v,
    r = Ok v
    /\ makes t = [] /\ draws t = []
    /\ prompts t = (if is_none given
                    then [prompt_text (len options - 1) default_message]
                    else [])
    /\ (if is_none given
        then In v (dict_keys options) \/ v = PInt (-1)
        else v = given).
Proof.
  intros M. destruct (is_none given).
  - intros H.
    destruct (choose_option_prompts options option_name false (PInt (-1))
                default_message t r eq_refl M H) as (P & K & D).
    apply choose_option_given in H; [| reflexivity].
    destruct H as (v & -> & I & _). exists v. auto.
  - simpl. intros [-> ->]. exists given. auto.
Qed.

Lemma draw_detail (candidates : list Z) (v : pyval) t r :
  runs (if pyval_eqb v (PInt (-1))
        then z <- np_random_choice candidates ;; Ret (PInt z)
        else Ret v) t r ->
  exists v',
    r = Ok v'
    /\ makes t = [] /\ prompts t = []
    /\ ((pyval_eqb v (PInt (-1)) = true
         /\ exists z, v' = PInt z /\ t = [(RandomChoice candidates, RChoice z)])
        \/ (pyval_eqb v (PInt (-1)) = false /\ v' = v /\ t = [])).
Proof.
  destruct (pyval_eqb v (PInt (-1))); simpl.
  - intros (z & t' & -> & [-> ->]). exists (PInt z). splits; auto.
    left. eauto.
  - intros [-> ->]. exists v. splits; auto.
Qed.

Lemma drawn_resolved given options candidates v v' tc (pre post : trace) :
  (if is_none given then In v (dict_keys options) \/ v = PInt (-1)
   else v = given) ->
  (pyval_eqb v (PInt (-1)) = true
   /\ exists z, v' = PInt z /\ tc = [(RandomChoice candidates, RChoice z)])
  \/ (pyval_eqb v (PInt (-1)) = false /\ v' = v /\ tc = []) ->
  id_resolved given options candidates (pre ++ tc ++ post) v'.
Proof.
  intros G [(E & z & -> & ->) | (E & -> & ->)].
  - left. exists z. split; [reflexivity |].
    apply in_or_app. right. simpl. auto.
  - right. split; [exact E |].
    destruct (is_none given); [| exact G].
    destruct G as [G | ->]; [exact G | discriminate E].
Qed.

Lemma place_objects_only_places placements cfgs :
  forall xml info t r,
    runs (place_objects placements cfgs xml info) t r ->
    makes t = [] /\ prompts t = [] /\ draws t = []
    /\ Forall (fun ev => is_start ev = false) t.
Proof.
  induction cfgs as [| cfg rest IH]; intros xml info t r H; simpl in H.
  - destruct H as [-> _]. splits; auto.
  - unfold getitem in H.
    destruct (dict_get String.eqb placements (cfg_name cfg)) as [pq |];
      simpl in H.
    + destruct H as (x & t' & -> & H). destruct x as [xml1 | e]; simpl in H.
      * apply IH in H. destruct H as (M & P & D & S). simpl. splits; auto.
      * destruct H as [-> _]. simpl. splits; auto.
    + destruct H as [-> _]. splits; auto.
Qed.

Lemma assemble_only_assembles xml info write_to_file robot_spawn_pose t r :
  runs (assemble_and_save xml info write_to_file robot_spawn_pose) t r ->
  makes t = [] /\ prompts t = [] /\ draws t = [] /\ placings t = []
  /\ Forall (fun ev => is_start ev = false) t.
Proof.
  intros H. run_assemble H.
  all: splits; try reflexivity; repeat constructor.
Qed.

(** [scene] makes the environment once, for the ids it is given, and
    neither prompts nor draws. *)
Lemma scene_makes STYLES task layout style write_to_file robot_spawn_pose t r :
  runs (scene STYLES task layout style write_to_file robot_spawn_pose) t r ->
  makes t = [(task, layout, style)] /\ prompts t = [] /\ draws t = []
  /\ Forall (fun ev => is_start ev = false) t.
Proof.
  intros H. unfold scene in H. simpl in H.
  destruct H as (x & t' & -> & H). simpl.
  assert (K : makes t' = [] /\ prompts t' = [] /\ draws t' = []
              /\ Forall (fun ev => is_start ev = false) t').
  { destruct x as [env | e]; simpl in H;
      [| destruct H as [-> _]; splits; auto].
    unfold getitem in H.
    destruct (dict_get pyval_eqb layouts layout); simpl in H;
      [| destruct H as [-> _]; splits; auto].
    destruct (dict_get pyval_eqb (styles STYLES) style); simpl in H;
      [| destruct H as [-> _]; splits; auto].
    apply runs_bind in H.
    destruct H as [(e & H & _) | ([xml info] & tp & t3 & Hp & H & ->)].
    - eapply place_objects_only_places; eauto.
    - apply place_objects_only_places in Hp.
      apply assemble_only_assembles in H.
      destruct Hp as (M1 & P1 & D1 & S1). destruct H as (M2 & P2 & D2 & _ & S2).
      rewrite makes_app, prompts_app, draws_app, M1, M2, P1, P2, D1, D2.
      splits; auto. apply Forall_app. auto. }
  destruct K as (M & P & D & S). rewrite M, P, D. splits; auto.
Qed.

(** Every run of the wizard makes the environment exactly once; each id it
    is made for is resolved as [id_resolved] says; the prompts are those of the
    ids the caller left out, the layout first. *)
Lemma wizard_ids STYLES task layout style write_to_file robot_spawn_pose t r :
  runs (model_generation_wizard STYLES task layout style write_to_file
          robot_spawn_pose) t r ->
  exists layout' style',
    makes t = [(task, layout', style')]
    /\ id_resolved layout layouts (range 10) t layout'
    /\ id_resolved style (styles STYLES) (range 11) t style'
    /\ prompts t
       = (if is_none layout
          then [prompt_text (len layouts - 1) (PStr "random layouts")]
          else [])
         ++ (if is_none style
             then [prompt_text (len (styles STYLES) - 1) (PStr "random styles")]
             else [])
    /\ (exists dl ds,
          draws t = dl ++ ds
          /\ (dl = [] \/ dl = [range 10])
          /\ (ds = [] \/ ds = [range 11])
          /\ (is_none layout = false ->
              pyval_eqb layout (PInt (-1)) = false ->
              dl = [] /\ layout' = layout)
          /\ (is_none style = false ->
              pyval_eqb style (PInt (-1)) = false ->
              ds = [] /\ style' = style))
    /\ Forall (fun ev => is_start ev = false) t
    /\ exists t1 t2,
         t = t1 ++ t2
         /\ Forall (fun ev => picking ev = true) t1
         /\ runs (scene STYLES task layout' style' write_to_file
                    robot_spawn_pose) t2 r.
Proof.
  intros H. unfold model_generation_wizard in H.
  apply runs_bind in H.
  destruct H as [(e & H & _) | (l1 & ta & u1 & Ha & H & ->)];
    [apply pick_or_given in H; destruct H as (v & E & _); discriminate E |].
  pose proof (pick_or_given _ _ _ _ _ _ Ha) as (_ & _ & Fa).
  apply pick_detail in Ha; [| reflexivity].
  destruct Ha as (? & E & Ma & Da & Pa & Ga). injection E as <-.
  apply runs_bind in H.
  destruct H as [(e & H & _) | (s1 & tb & u2 & Hb & H & ->)];
    [apply pick_or_given in H; destruct H as (v & E & _); discriminate E |].
  pose proof (pick_or_given _ _ _ _ _ _ Hb) as (_ & _ & Fb).
  apply pick_detail in Hb; [| reflexivity].
  destruct Hb as (? & E & Mb & Db & Pb & Gb). injection E as <-.
  apply runs_bind in H.
  destruct H as [(e & H & _) | (l2 & tc & u3 & Hc & H & ->)];
    [apply draw_or_given in H; destruct H as (v & E & _); discriminate E |].
  pose proof (draw_or_given _ _ _ _ Hc) as (_ & _ & Fc).
  apply draw_detail in Hc.
  destruct Hc as (? & E & Mc & Pc & Gc). injection E as <-.
  apply runs_bind in H.
  destruct H as [(e & H & _) | (s2 & td & u4 & Hd & H & ->)];
    [apply draw_or_given in H; destruct H as (v & E & _); discriminate E |].
  pose proof (draw_or_given _ _ _ _ Hd) as (_ & _ & Fd).
  apply draw_detail in Hd.
  destruct Hd as (? & E & Md & Pd & Gd). injection E as <-.
  change (runs (scene STYLES task l2 s2 write_to_file robot_spawn_pose) u4 r)
    in H.
  pose proof (scene_makes _ _ _ _ _ _ _ _ H) as (Ms & Ps & Ds & Ss).
  exists l2, s2. splits.
  - rewrite !makes_app, Ma, Mb, Mc, Md, Ms. reflexivity.
  - replace (ta ++ tb ++ tc ++ td ++ u4)
      with ((ta ++ tb) ++ tc ++ (td ++ u4))
      by (rewrite <- !app_assoc; reflexivity).
    eapply drawn_resolved; eauto.
  - replace (ta ++ tb ++ tc ++ td ++ u4)
      with ((ta ++ tb ++ tc) ++ td ++ u4)
      by (rewrite <- !app_assoc; reflexivity).
    eapply drawn_resolved; eauto.
  - rewrite !prompts_app, Pa, Pb, Pc, Pd, Ps, !app_nil_r. reflexivity.
  - exists (draws tc), (draws td).
    rewrite !draws_app, Da, Db, Ds, app_nil_r. splits.
    + reflexivity.
    + destruct Gc as [(_ & z & _ & ->) | (_ & _ & ->)]; auto.
    + destruct Gd as [(_ & z & _ & ->) | (_ & _ & ->)]; auto.
    + intros N L. rewrite N in Ga. subst l1.
      destruct Gc as [(E1 & _) | (_ & -> & ->)]; [congruence | auto].
    + intros N L. rewrite N in Gb. subst s1.
      destruct Gd as [(E1 & _) | (_ & -> & ->)]; [congruence | auto].
  - repeat (apply Forall_app; split); auto;
      eapply Forall_impl; try eassumption;
      intros [c x] P; destruct c; try discriminate P; reflexivity.
  - exists (ta ++ tb ++ tc ++ td), u4. splits.
    + rewrite <- !app_assoc. reflexivity.
    + repeat (apply Forall_app; split); assumption.
    + exact H.
Qed.

(** X6.  Ids the caller supplies are used as they are: with a layout and a
    style given, neither of them [-1], the wizard prompts for nothing, draws
    nothing, and makes the environment once, for exactly those ids. *)
Theorem supplied_ids_pass_through STYLES task layout style write_to_file
    robot_spawn_pose t r :
  is_none layout = false -> pyval_eqb layout (PInt (-1)) = false ->
  is_none style = false -> pyval_eqb style (PInt (-1)) = false ->
  runs (model_generation_wizard STYLES task layout style write_to_file
          robot_spawn_pose) t r ->
  makes t = [(task, layout, style)] /\ prompts t = [] /\ draws t = [].
Proof.
  intros N1 L1 N2 L2 H. apply wizard_ids in H.
  destruct H as (l & s & M & _ & _ & P & (dl & ds & D & _ & _ & A & B) & _).
  destruct (A N1 L1) as [-> ->]. destruct (B N2 L2) as [-> ->].
  rewrite N1, N2 in P. auto.
Qed.

(** X7.  The wizard prompts exactly for the ids the caller left out, the
    layout before the style, each once, and for nothing else: the layout
    prompt offers 0 to 9 and names the random layouts as the default, the
    style prompt offers 0 to the number of styles less one. *)
Theorem prompts_for_missing_ids STYLES task layout style write_to_file
    robot_spawn_pose t r :
  runs (model_generation_wizard STYLES task layout style write_to_file
          robot_spawn_pose) t r ->
  prompts t
  = (if is_none layout
     then ["Choose an option 0 to 9, or any other key for default (random layouts): "]
     else [])
    ++ (if is_none style
        then [prompt_text (len (styles STYLES) - 1) (PStr "random styles")]
        else []).
Proof.
  intros H. apply wizard_ids in H.
  destruct H as (l & s & _ & _ & _ & P & _). exact P.
Qed.

Lemma range_bounds (n : nat) (z : Z) :
  In z (range n) -> (0 <= z < Z.of_nat n)%Z.
Proof.
  unfold range. intros I. apply in_map_iff in I.
  destruct I as (k & <- & I). apply in_seq in I. lia.
Qed.

(** X8.  A layout the wizard chooses is a valid one.  When the caller gives
    no layout, or [-1], and [np.random.choice] returns a member of the list
    it is given, the environment is made for a layout id between 0 and 9. *)
Theorem chosen_layout_in_range STYLES task layout style write_to_file
    robot_spawn_pose t r :
  is_none layout = true \/ layout = PInt (-1) ->
  (forall a z, In (RandomChoice a, RChoice z) t -> In z a) ->
  runs (model_generation_wizard STYLES task layout style write_to_file
          robot_spawn_pose) t r ->
  exists k style',
    makes t = [(task, PInt k, style')] /\ (0 <= k <= 9)%Z.
Proof.
  intros G F H. apply wizard_ids in H.
  destruct H as (l & s & M & R & _).
  destruct R as [(z & -> & I) | (E & R)].
  - apply F in I. apply range_bounds in I. exists z, s. split; [exact M | lia].
  - destruct G as [G | ->].
    + rewrite G in R. simpl in R.
      repeat match goal with
             | R : _ \/ _ |- _ => destruct R as [R | R]
             end; try contradiction; subst l;
        eexists _, s; (split; [exact M | lia]).
    + simpl in R. subst l. discriminate E.
Qed.

(** X9.  A layout id the caller supplies is not checked before the
    environment is made: with a layout that is neither [-1] nor one of 0 to
    9, the wizard makes the environment for it and then fails, with the
    exception of [robosuite.make] or, if that returned, with the [KeyError]
    of [layouts[layout]]; no edit is made and nothing is written. *)
Theorem unknown_layout_fails STYLES task layout style write_to_file
    robot_spawn_pose t r :
  is_none layout = false -> pyval_eqb layout (PInt (-1)) = false ->
  dict_get pyval_eqb layouts layout = None ->
  runs (model_generation_wizard STYLES task layout style write_to_file
          robot_spawn_pose) t r ->
  exists style' x e,
    last t (Input "", RStr (Ok "")) = (RobosuiteMake task layout style', REnv x)
    /\ r = Err e
    /\ (x = Err e \/ (e = KeyError /\ exists env, x = Ok env))
    /\ edits t = [] /\ writes t = [].
Proof.
  intros N L K H. apply wizard_ids in H.
  destruct H as (l & s & _ & _ & _ & _ & (dl & ds & _ & _ & _ & A & _) & _
                 & t1 & t2 & -> & P & H).
  destruct (A N L) as [_ ->].
  apply picking_quiet in P. destruct P as (E1 & W1 & _).
  unfold scene, getitem in H. rewrite K in H. simpl in H.
  destruct H as (x & t' & -> & H).
  assert (T : t' = [] /\ exists e,
                r = Err e /\ (x = Err e \/ (e = KeyError /\ exists env, x = Ok env))).
  { destruct x as [env | e]; simpl in H; destruct H as [-> ->];
      (split; [reflexivity |]).
    - exists KeyError. split; [reflexivity |]. right. eauto.
    - exists e. split; [reflexivity |]. left. reflexivity. }
  destruct T as (-> & e & -> & X).
  exists s, x, e. splits; auto.
  - rewrite last_last. reflexivity.
  - rewrite edits_app, E1. reflexivity.
  - rewrite writes_app, W1. reflexivity.
Qed.

(** ** More on placement accumulation *)

Lemma dict_keys_set_in {V : Type} (d : list (string * V)) k v k' :
  In k' (dict_keys (dict_set String.eqb d k v)) <-> k' = k \/ In k' (dict_keys d).
Proof.
  unfold dict_keys. induction d as [| [k0 v0] d IH]; simpl.
  - intuition.
  - destruct (String.eqb k0 k) eqn:E; simpl.
    + apply String.eqb_eq in E. subst k0. intuition.
    + rewrite IH. intuition.
Qed.

Lemma dict_set_length {V : Type} (d : list (string * V)) k v :
  (List.length (dict_set String.eqb d k v) <= S (List.length d))%nat.
Proof.
  induction d as [| [k0 v0] d IH]; simpl; [lia |].
  destruct (String.eqb k0 k); simpl; lia.
Qed.

Lemma dict_get_in_keys {V : Type} (d : list (string * V)) k v :
  dict_get String.eqb d k = Some v -> In k (dict_keys d).
Proof.
  unfold dict_keys. induction d as [| [k0 v0] d IH]; simpl; [discriminate |].
  destruct (String.eqb k0 k) eqn:E.
  - apply String.eqb_eq in E. auto.
  - auto.
Qed.

(** The registry the loop builds depends on the object list and on the
    placement table alone, not on what the editor replies. *)
Lemma place_objects_registry placements cfgs :
  forall seen xml info t xml' info',
    runs (place_objects placements cfgs xml info) t (Ok (xml', info')) ->
    (forall key e, dict_get String.eqb info key = Some e ->
       exists cfg,
         In cfg seen /\ key = key_of cfg /\ p_cat e = cfg_cat cfg
         /\ dict_get String.eqb placements (cfg_name cfg)
            = Some (p_pos e, p_quat e)) ->
    (forall cfg, In cfg seen ->
       exists e,
         dict_get String.eqb info (key_of cfg) = Some e
         /\ dict_get String.eqb placements (cfg_name cfg)
            = Some (p_pos e, p_quat e)) ->
    (forall key e, dict_get String.eqb info' key = Some e ->
       exists cfg,
         In cfg (seen ++ cfgs) /\ key = key_of cfg /\ p_cat e = cfg_cat cfg
         /\ dict_get String.eqb placements (cfg_name cfg)
            = Some (p_pos e, p_quat e))
    /\ (forall cfg, In cfg (seen ++ cfgs) ->
          exists e,
            dict_get String.eqb info' (key_of cfg) = Some e
            /\ dict_get String.eqb placements (cfg_name cfg)
               = Some (p_pos e, p_quat e))
    /\ (List.length info' <= List.length info + List.length cfgs)%nat.
Proof.
  induction cfgs as [| cfg rest IH];
    intros seen xml info t xml' info' H From Covers.
  - simpl in H. destruct H as [_ E]. injection E as <- <-.
    rewrite app_nil_r. splits; auto. simpl. lia.
  - simpl in H. unfold getitem in H.
    destruct (dict_get String.eqb placements (cfg_name cfg)) as [[pos quat] |]
      eqn:P; simpl in H; [| destruct H as [_ E]; discriminate E].
    destruct H as (x & t' & -> & H).
    destruct x as [xml1 | e]; simpl in H; [| destruct H as [_ E]; discriminate E].
    apply (IH (seen ++ [cfg])) in H.
    + rewrite <- app_assoc in H. simpl in H.
      destruct H as (F & C & L). splits; auto.
      pose proof (dict_set_length info (String.append (cfg_name cfg) "_main")
                    {| p_cat := cfg_cat cfg; p_pos := pos; p_quat := quat |}).
      simpl. lia.
    + intros key e G.
      destruct (String.eqb (key_of cfg) key) eqn:K.
      * apply String.eqb_eq in K. subst key. unfold key_of in G.
        rewrite dict_get_set_same in G. injection G as <-.
        exists cfg. simpl. splits; auto. apply in_or_app. simpl. auto.
      * apply String.eqb_neq in K. unfold key_of in K.
        rewrite dict_get_set_other in G by exact K.
        destruct (From key e G) as (c & I & E). exists c. split; [| exact E].
        apply in_or_app. auto.
    + intros c I. apply in_app_or in I.
      destruct (String.eqb (key_of cfg) (key_of c)) eqn:K.
      * apply String.eqb_eq in K. rewrite <- K. unfold key_of at 1.
        rewrite dict_get_set_same. eexists. split; [reflexivity |]. simpl.
        unfold key_of in K. apply append_same_suffix in K.
        rewrite <- K. exact P.
      * apply String.eqb_neq in K. unfold key_of at 1 in K.
        rewrite dict_get_set_other by exact K.
        destruct I as [I | [<- | []]]; [auto |].
        exfalso. apply K. reflexivity.
Qed.

(** X10.  The registry mirrors the placement table, whatever the editor
    replies and whether or not names repeat: when the loop completes, every
    listed object has an entry under its name followed by [_main], every
    entry belongs to a listed object and carries that object's category, and
    the position and quaternion of an entry are those the table holds for
    the object; there are at most as many entries as objects. *)
Theorem registry_mirrors_placements placements cfgs xml t xml' info :
  runs (place_objects placements cfgs xml []) t (Ok (xml', info)) ->
  (forall cfg, In cfg cfgs ->
     exists e,
       dict_get String.eqb info (String.append (cfg_name cfg) "_main") = Some e
       /\ dict_get String.eqb placements (cfg_name cfg)
          = Some (p_pos e, p_quat e))
  /\ (forall key e, dict_get String.eqb info key = Some e ->
        exists cfg,
          In cfg cfgs /\ key = String.append (cfg_name cfg) "_main"
          /\ p_cat e = cfg_cat cfg
          /\ dict_get String.eqb placements (cfg_name cfg)
             = Some (p_pos e, p_quat e))
  /\ (List.length info <= List.length cfgs)%nat.
Proof.
  intros H. apply (place_objects_registry placements cfgs []) in H.
  - simpl in H. destruct H as (F & C & L). splits; auto.
  - intros key e G. discriminate G.
  - intros cfg [].
Qed.

(** X11.  The loop edits the bodies in the order of the object list: the
    pose overrides it asks for are, for the first so many objects of the
    list, the body named after the object with the pose the table holds for
    it, and for all of them when the loop completes. *)
Theorem placements_in_list_order placements cfgs xml info t r :
  runs (place_objects placements cfgs xml info) t r ->
  exists n,
    (n <= List.length cfgs)%nat
    /\ Forall2
         (fun cfg p =>
            exists pos quat,
              dict_get String.eqb placements (cfg_name cfg) = Some (pos, quat)
              /\ p = ("body", String.append (cfg_name cfg) "_main", pos, quat))
         (firstn n cfgs) (placings t)
    /\ (forall a, r = Ok a -> n = List.length cfgs).
Proof.
  revert xml info t r.
  induction cfgs as [| cfg rest IH]; intros xml info t r H; simpl in H.
  - destruct H as [-> _]. exists 0%nat. splits; [simpl; lia | constructor | auto].
  - unfold getitem in H.
    destruct (dict_get String.eqb placements (cfg_name cfg)) as [[pos quat] |]
      eqn:P; simpl in H.
    + destruct H as (x & t' & -> & H). destruct x as [xml1 | e]; simpl in H.
      * apply IH in H. destruct H as (n & L & F & K).
        exists (S n). simpl. splits; [lia | | intros a E; f_equal; eauto].
        constructor; [| exact F]. eauto.
      * destruct H as [-> ->]. exists 1%nat. simpl. splits; [lia | |].
        -- constructor; [eauto | constructor].
        -- intros a E. discriminate E.
    + destruct H as [-> ->]. exists 0%nat. simpl.
      splits; [lia | constructor | intros a E; discriminate E].
Qed.

(** ** More on assembling and saving *)

(** With no pose from the caller, the pose that came back from the removal
    of the default robot is looked up for [pos] and [quat] before anything
    else is done with it. *)
Lemma assemble_captured_pose xml info write_to_file t r xml0 xml1 pose :
  runs (assemble_and_save xml info write_to_file None) t r ->
  In (XmlRemoveTagByName xml0 "body" "robot0_base", RCut (Ok (xml1, pose))) t ->
  dict_get String.eqb pose "pos" = None
  \/ dict_get String.eqb pose "quat" = None ->
  r = Err KeyError /\ spawn_poses t = [] /\ writes t = []
  /\ edits t = cleanup_edits.
Proof.
  intros H I M. run_assemble H.
  all: split_in I.
  all: injection I as -> -> ->.
  all: try (destruct M as [M | M]; congruence).
  all: splits; reflexivity.
Qed.

(** X12.  With no spawn pose from the caller, the pose captured from the
    default robot must carry both [pos] and [quat]: if either is missing the
    wizard raises [KeyError] right after the cleanup, having asked for no
    robot model path, inserted nothing and written nothing. *)
Theorem captured_pose_needs_pos_and_quat STYLES task layout style
    write_to_file t r xml0 xml1 pose :
  runs (model_generation_wizard STYLES task layout style write_to_file None)
    t r ->
  In (XmlRemoveTagByName xml0 "body" "robot0_base", RCut (Ok (xml1, pose))) t ->
  dict_get String.eqb pose "pos" = None
  \/ dict_get String.eqb pose "quat" = None ->
  r = Err KeyError
  /\ spawn_poses t = []
  /\ writes t = []
  /\ exists names, edits t = map (EPlace "body") names ++ cleanup_edits.
Proof.
  intros H I M. apply wizard_shape in H.
  destruct H as (t1 & t2 & t3 & -> & P & S & H).
  apply in_app_or in I. destruct I as [I | I];
    [exfalso; eapply picking_not_removal; eauto |].
  apply in_app_or in I. destruct I as [I | I];
    [exfalso; eapply staging_not_removal; eauto |].
  apply picking_quiet in P. destruct P as (E1 & W1 & P1 & _).
  apply staging_quiet in S. destruct S as ((names & E2) & W2 & P2).
  destruct H as [(e & _ & ->) | (_ & xml & info & H)]; [destruct I |].
  destruct (assemble_captured_pose _ _ _ _ _ _ _ _ H I M) as (-> & P3 & W3 & E3).
  rewrite !spawn_poses_app, !writes_app, !edits_app,
    E1, E2, E3, W1, W2, W3, P1, P2, P3.
  splits; auto. exists names. reflexivity.
Qed.

(** What a returning run of the assembling state ends with. *)
Lemma assemble_returns xml info write_to_file robot_spawn_pose t model xml'
    info' :
  runs (assemble_and_save xml info write_to_file robot_spawn_pose) t
    (Ok (model, xml', info')) ->
  info' = info
  /\ exists t0 xml1 path,
       t = t0
           ++ [ (InsertLineAfterMujocoTag xml1 (include_line path),
                 RDoc (Ok xml'));
                (FromXmlString xml', RModel (Ok model)) ]
           ++ match write_to_file with
              | Some dest => [(WriteFile dest xml', RUnit (Ok tt))]
              | None => []
              end.
Proof.
  intros H. run_assemble H.
  all: try discriminate.
  all: match goal with E : Ok _ = Ok _ |- _ => injection E as -> -> -> end.
  all: split; [reflexivity |].
  all: eexists [_; _; _; _; _; _; _; _; _], _, _.
  - destruct x9. reflexivity.
  - reflexivity.
Qed.

(** X13.  Without a destination path the wizard writes no file, in any run;
    and the model it returns is not the one of the environment but the one
    loaded, as the last call of the run, from the document it returns, which
    is the document the insertion returned. *)
Theorem no_destination_no_write STYLES task layout style robot_spawn_pose t r :
  runs (model_generation_wizard STYLES task layout style None
          robot_spawn_pose) t r ->
  writes t = []
  /\ forall model xml info, r = Ok (model, xml, info) ->
       exists t0 xml1 path,
         t = t0
             ++ [ (InsertLineAfterMujocoTag xml1 (include_line path),
                   RDoc (Ok xml));
                  (FromXmlString xml, RModel (Ok model)) ].
Proof.
  intros H. apply wizard_shape in H.
  destruct H as (t1 & t2 & t3 & -> & P & S & H).
  apply picking_quiet in P. destruct P as (_ & W1 & _).
  apply staging_quiet in S. destruct S as (_ & W2 & _).
  rewrite !writes_app, W1, W2. simpl.
  destruct H as [(e & -> & ->) | (_ & xml & info & H)].
  - split; [reflexivity | intros m x i E; discriminate E].
  - split.
    + apply assemble_writes in H.
      destruct H as [[W _] | (path & t0 & x' & m & x & p & x1 & E & _)];
        [exact W | discriminate E].
    + intros m x i ->. apply assemble_returns in H.
      destruct H as (_ & t0 & xml1 & path & ->).
      exists (t1 ++ t2 ++ t0), xml1, path.
      rewrite app_nil_r, <- !app_assoc. reflexivity.
Qed.

(** ** The command line entry *)

Lemma to_int_not_nil (z : Z) :
  Z.to_int z <> Decimal.Pos Decimal.Nil /\ Z.to_int z <> Decimal.Neg Decimal.Nil.
Proof.
  destruct z as [| p | p]; simpl; split; try discriminate;
    intros E; injection E as E; exact (Unsigned.to_uint_nonnil p E).
Qed.

(** [str] tells integers apart. *)
Lemma py_str_int_inj (a b : Z) : py_str (PInt a) = py_str (PInt b) -> a = b.
Proof.
  simpl. intros H. apply (f_equal NilZero.int_of_string) in H.
  destruct (to_int_not_nil a) as [A1 A2]. destruct (to_int_not_nil b) as [B1 B2].
  rewrite !NilZero.isi in H by assumption.
  injection H as H. apply DecimalZ.to_int_inj. exact H.
Qed.

Lemma dict_set_new {V : Type} (d : list (string * V)) k v :
  ~ In k (dict_keys d) -> dict_set String.eqb d k v = d ++ [(k, v)].
Proof.
  unfold dict_keys. induction d as [| [k' v'] d IH]; simpl; intros N.
  - reflexivity.
  - destruct (String.eqb k' k) eqn:E.
    + apply String.eqb_eq in E. tauto.
    + rewrite IH; tauto.
Qed.

Lemma object_label_inj (a b : Z) : object_label a = object_label b -> a = b.
Proof.
  unfold object_label. intros H. apply py_str_int_inj.
  simpl in H. injection H as H. exact H.
Qed.

Lemma scene_objects_from (objects_info : registry) :
  forall (i : nat) (output : list (string * scene_object)),
    (forall j, (i <= j)%nat ->
       ~ In (object_label (Z.of_nat j + 1)) (dict_keys output)) ->
    scene_objects (Z.of_nat i) objects_info output
    = output
      ++ map (fun ne => numbered (fst ne) (snd ne))
           (combine (seq i (List.length objects_info)) objects_info).
Proof.
  induction objects_info as [| [key obj] rest IH]; intros i output F.
  - cbn [scene_objects List.length seq combine map]. rewrite app_nil_r.
    reflexivity.
  - cbn [scene_objects List.length seq combine map fst snd].
    change (String.append "object_" (py_str (PInt (Z.of_nat i + 1))))
      with (object_label (Z.of_nat i + 1)).
    rewrite dict_set_new by (apply (F i); lia).
    assert (Ei : (Z.of_nat i + 1)%Z = Z.of_nat (S i)) by lia.
    rewrite Ei at 1. rewrite IH.
    + rewrite <- app_assoc. reflexivity.
    + intros j L I. unfold dict_keys in I. rewrite map_app in I.
      apply in_app_or in I. destruct I as [I | [E | []]].
      * apply (F j); [lia | exact I].
      * cbn [map fst] in E. apply object_label_inj in E. lia.
Qed.

(** X14.  The objects [main] hands to the simulator: one per entry of the
    registry, in the order of the registry, the [n]-th of them (from 0)
    under the key [object_] followed by [n + 1], with the id [n], the
    registry key, the category as its name and the position; no entry
    overwrites another. *)
Theorem scene_objects_numbered (objects_info : registry) :
  List.length (scene_objects 0 objects_info []) = List.length objects_info
  /\ forall n key obj,
       nth_error objects_info n = Some (key, obj) ->
       nth_error (scene_objects 0 objects_info []) n
       = Some (String.append "object_" (py_str (PInt (Z.of_nat n + 1))),
               {| o_id := Z.of_nat n; o_key := key; o_name := p_cat obj;
                  o_position := p_pos obj |}).
Proof.
  pose proof (scene_objects_from objects_info 0 []) as E.
  change (Z.of_nat 0) with 0%Z in E.
  rewrite E by (intros j _ []). clear E. split.
  - rewrite app_nil_l, length_map, length_combine, length_seq. lia.
  - intros n key obj N. rewrite app_nil_l, nth_error_map.
    assert (C : forall i,
               nth_error (combine (seq i (List.length objects_info))
                            objects_info) n = Some ((i + n)%nat, (key, obj))).
    { revert n N.
      induction objects_info as [| e rest IH]; intros n N i.
      - destruct n; discriminate N.
      - destruct n as [| n]; cbn [List.length seq combine nth_error] in *.
        + injection N as ->. rewrite Nat.add_0_r. reflexivity.
        + rewrite (IH n N (S i)). f_equal. f_equal. lia. }
    rewrite (C 0%nat). reflexivity.
Qed.

(** X15.  [main] starts the simulator last and only on success.  A run of
    [main] either fails without having started it, or is a returning run of
    the wizard (called with the fixed spawn pose), then the instruction
    prompt, answered, then the start of the simulator with that instruction,
    the model the wizard returned and the numbered objects of its registry;
    the result of [main] is the result of that start. *)
Theorem main_starts_simulator_last STYLES task layout style write_to_file t r :
  runs (main STYLES task layout style write_to_file) t r ->
  (Forall (fun ev => is_start ev = false) t /\ exists e, r = Err e)
  \/ exists tw model xml info instruction x,
       runs (model_generation_wizard STYLES task layout style write_to_file
               (Some cli_spawn_pose)) tw (Ok (model, xml, info))
       /\ Forall (fun ev => is_start ev = false) tw
       /\ t = tw
              ++ [ (Input "Please enter your instruction or string: ",
                    RStr (Ok instruction));
                   (UntidyBot instruction model (scene_objects 0 info []),
                    RUnit x) ]
       /\ r = x.
Proof.
  intros H. unfold main in H. apply runs_bind in H.
  destruct H as [(e & H & ->) | ([[model xml] info] & tw & t2 & Hw & H & ->)].
  - left. apply wizard_ids in H.
    destruct H as (_ & _ & _ & _ & _ & _ & _ & S & _). eauto.
  - pose proof (wizard_ids _ _ _ _ _ _ _ _ Hw)
      as (_ & _ & _ & _ & _ & _ & _ & S & _).
    simpl in H. destruct H as (y & u & -> & H).
    destruct y as [instruction | e]; simpl in H.
    + destruct H as (x & u' & -> & H).
      assert (E : u' = [] /\ r = x).
      { destruct x as [[] | e]; simpl in H; destruct H as [-> ->]; auto. }
      destruct E as [-> ->]. right.
      exists tw, model, xml, info, instruction, x. auto.
    + destruct H as [-> ->]. left. split; [| eauto].
      apply Forall_app. split; [exact S | repeat constructor].
Qed.

(** ** The styles mapping *)

Lemma pyval_eqb_eq (a b : pyval) : pyval_eqb a b = true <-> a = b.
Proof.
  destruct a, b; simpl; split; intros H; try discriminate H; try reflexivity.
  - apply Z.eqb_eq in H. congruence.
  - injection H as ->. apply Z.eqb_refl.
  - apply String.eqb_eq in H. congruence.
  - injection H as ->. apply String.eqb_refl.
Qed.

Lemma pyval_eqb_refl (a : pyval) : pyval_eqb a a = true.
Proof.
  apply pyval_eqb_eq. reflexivity.
Qed.

Lemma odict_get_set_same (d : odict) k v :
  dict_get pyval_eqb (dict_set pyval_eqb d k v) k = Some v.
Proof.
  induction d as [| [k' v'] d IH]; simpl.
  - rewrite pyval_eqb_refl. reflexivity.
  - destruct (pyval_eqb k' k) eqn:E; simpl; rewrite E; auto.
Qed.

Lemma odict_get_set_other (d : odict) k v k' :
  k <> k' ->
  dict_get pyval_eqb (dict_set pyval_eqb d k v) k' = dict_get pyval_eqb d k'.
Proof.
  intros N. induction d as [| [k0 v0] d IH]; simpl.
  - destruct (pyval_eqb k k') eqn:E; [apply pyval_eqb_eq in E; tauto |].
    reflexivity.
  - destruct (pyval_eqb k0 k) eqn:E; simpl.
    + apply pyval_eqb_eq in E. subst k0.
      destruct (pyval_eqb k k') eqn:E'; [apply pyval_eqb_eq in E'; tauto |].
      reflexivity.
    + rewrite IH. reflexivity.
Qed.

Lemma odict_keys_set_new (d : odict) k v :
  ~ In k (dict_keys d) ->
  dict_keys (dict_set pyval_eqb d k v) = dict_keys d ++ [k].
Proof.
  unfold dict_keys. induction d as [| [k' v'] d IH]; simpl; intros N.
  - reflexivity.
  - destruct (pyval_eqb k' k) eqn:E.
    + apply pyval_eqb_eq in E. tauto.
    + simpl. rewrite IH; tauto.
Qed.

Lemma zdict_get_in {V : Type} (d : list (Z * V)) k :
  In k (dict_keys d) -> exists v, dict_get Z.eqb d k = Some v.
Proof.
  unfold dict_keys. induction d as [| [k' v'] d IH]; simpl; [intros [] |].
  destruct (Z.eqb k' k) eqn:E; [eauto |].
  intros [-> | I]; [rewrite Z.eqb_refl in E; discriminate E | auto].
Qed.

Lemma zdict_get_keys {V : Type} (d : list (Z * V)) k v :
  dict_get Z.eqb d k = Some v -> In k (dict_keys d).
Proof.
  unfold dict_keys. induction d as [| [k' v'] d IH]; simpl; [discriminate |].
  destruct (Z.eqb k' k) eqn:E; [apply Z.eqb_eq in E; auto | auto].
Qed.

Lemma insert_key_perm k l : Permutation (insert_key k l) (k :: l).
Proof.
  induction l as [| x l IH]; simpl; [reflexivity |].
  destruct (k <=? x)%Z; [reflexivity |].
  rewrite IH. apply perm_swap.
Qed.

Lemma sorted_perm l : Permutation (sorted l) l.
Proof.
  induction l as [| k l IH]; simpl; [reflexivity |].
  rewrite insert_key_perm. constructor. exact IH.
Qed.

Lemma insert_key_sorted k l : Sorted Z.le l -> Sorted Z.le (insert_key k l).
Proof.
  induction 1 as [| x l S IH H]; simpl.
  - repeat constructor.
  - destruct (k <=? x)%Z eqn:E.
    + apply Z.leb_le in E. repeat constructor; auto.
    + apply Z.leb_gt in E. constructor; [exact IH |].
      destruct l as [| y l]; simpl.
      * constructor. lia.
      * destruct (k <=? y)%Z; constructor; [lia |].
        inversion H; subst. assumption.
Qed.

Lemma sorted_ascending l : Sorted Z.le (sorted l).
Proof.
  induction l as [| k l IH]; simpl; [constructor |].
  apply insert_key_sorted. exact IH.
Qed.

Lemma styles_fold_keys (STYLES : list (Z * string)) :
  forall ks acc,
    NoDup ks ->
    (forall k, In k ks -> ~ In (PInt k) (dict_keys acc)) ->
    (forall k, In k ks -> In k (dict_keys STYLES)) ->
    dict_keys
      (fold_left
         (fun acc k =>
            match dict_get Z.eqb STYLES k with
            | Some v => dict_set pyval_eqb acc (PInt k) (PStr (capitalize v))
            | None => acc
            end) ks acc)
    = dict_keys acc ++ map PInt ks.
Proof.
  induction ks as [| k ks IH]; intros acc N F K; simpl.
  - rewrite app_nil_r. reflexivity.
  - destruct (zdict_get_in STYLES k (K k (or_introl eq_refl))) as (v & ->).
    inversion N as [| x l X N']; subst.
    rewrite IH; auto.
    + rewrite odict_keys_set_new by (apply F; simpl; auto).
      rewrite <- app_assoc. reflexivity.
    + intros k' I J. rewrite odict_keys_set_new in J by (apply F; simpl; auto).
      apply in_app_or in J. destruct J as [J | [E | []]].
      * apply (F k'); simpl; auto.
      * injection E as ->. contradiction.
    + intros k' I. apply K. simpl. auto.
Qed.

(** X16.  The styles the wizard offers are those of [STYLES] in ascending
    order of id, whatever the order of [STYLES], one entry for each: so the
    index typed at the style prompt counts the style ids from the smallest. *)
Theorem styles_in_id_order (STYLES : list (Z * string)) :
  NoDup (dict_keys STYLES) ->
  dict_keys (styles STYLES) = map PInt (sorted (dict_keys STYLES))
  /\ Sorted Z.le (sorted (dict_keys STYLES))
  /\ Permutation (sorted (dict_keys STYLES)) (dict_keys STYLES)
  /\ List.length (styles STYLES) = List.length STYLES.
Proof.
  intros N.
  assert (K : dict_keys (styles STYLES)
              = map PInt (sorted (dict_keys STYLES))).
  { unfold styles. rewrite styles_fold_keys; [reflexivity | | |].
    - eapply Permutation_NoDup; [| exact N]. symmetry. apply sorted_perm.
    - intros k _ [].
    - intros k I. eapply Permutation_in; [apply sorted_perm | exact I]. }
  splits.
  - exact K.
  - apply sorted_ascending.
  - apply sorted_perm.
  - apply (f_equal (@List.length pyval)) in K.
    unfold dict_keys in K at 1. rewrite !length_map in K. rewrite K.
    rewrite (Permutation_length (sorted_perm (dict_keys STYLES))).
    unfold dict_keys. apply length_map.
Qed.

(** ** The further theorems on the small kitchen *)

Lemma wizard_failures_surface_witness :
  (Forall (fun ev => stage_ok ev = true) (fst small_run)
   /\ ((exists a, snd small_run = Ok a) \/ snd small_run = Err KeyError))
  \/ (exists t0 c x e,
        fst small_run = t0 ++ [(c, x)]
        /\ Forall (fun ev => stage_ok ev = true) t0
        /\ raised x = Some e
        /\ snd small_run = Err e).
Proof.
  apply (wizard_failures_surface small_styles "PnPCounterToCab" PNone (PInt 1)
           (Some "/tmp/kitchen.xml") None (fst small_run) (snd small_run)).
  exact (exec_runs _ _).
Defined.

Lemma choose_option_input_failure_witness :
  Ok (PInt (-1)) = Ok (PInt (-1))
  /\ [ (Input "Choose an option 0 to 2, or any other key for default (random layouts): ",
        RStr (Err EOFError)) ]
     = [ (Input "Choose an option 0 to 2, or any other key for default (random layouts): ",
          RStr (Err EOFError)) ].
Proof.
  apply (choose_option_input_failure three_layouts "kitchen layout" false
           (PInt (-1)) (PStr "random layouts")).
  - reflexivity.
  - replay.
  - simpl. auto.
Defined.

Lemma choose_option_no_default_no_zero_witness :
  @nil event = [] /\ @Err pyval KeyError = Err KeyError.
Proof.
  apply (choose_option_no_default_no_zero
           [(PInt 1, PStr "Galley"); (PInt 2, PStr "Wraparound")]
           "kitchen layout" false PNone).
  - reflexivity.
  - replay.
Defined.

Lemma choose_option_no_default_label_witness :
  exists choice,
    Ok (PStr "One wall") = Ok choice
    /\ (forall s e,
          In (Int s, RInt (Err e))
            [ (Input "Choose an option 0 to 2, or any other key for default (One wall): ",
               RStr (Ok "abc"));
              (Int "abc", RInt (Err ValueError)) ] ->
          choice = PStr "One wall")
    /\ (In choice (dict_keys three_layouts) \/ choice = PStr "One wall").
Proof.
  apply (choose_option_no_default_label three_layouts "kitchen layout" false
           PNone (PStr "One wall")).
  - reflexivity.
  - replay.
Defined.

(** Three layouts: -3 selects the first key, 1 the key at 1, and 5 the last
    key. *)
Lemma choose_option_ends_witness :
  (exists prompt,
     runs (choose_option three_layouts "kitchen layout" false (PInt (-1))
             (PStr "random layouts"))
       [(Input prompt, RStr (Ok "-3")); (Int "-3", RInt (Ok (-3)%Z))]
       (Ok (PInt 0)))
  /\ (exists prompt,
        runs (choose_option three_layouts "kitchen layout" false (PInt (-1))
                (PStr "random layouts"))
          [(Input prompt, RStr (Ok "1")); (Int "1", RInt (Ok 1%Z))]
          (Ok (PInt 1)))
  /\ (exists prompt,
        runs (choose_option three_layouts "kitchen layout" false (PInt (-1))
                (PStr "random layouts"))
          [(Input prompt, RStr (Ok "5")); (Int "5", RInt (Ok 5%Z))]
          (Ok (PInt 2))).
Proof.
  split; [| split].
  - destruct (choose_option_ends three_layouts "kitchen layout" false
                (PInt (-1)) (PStr "random layouts") "-3" (-3)%Z)
      as (prompt & key & R & _ & A & _ & _).
    + discriminate.
    + left. reflexivity.
    + assert (B : (-3 <= 0)%Z) by lia.
      apply A in B. simpl in B. injection B as <-.
      exists prompt. exact R.
  - destruct (choose_option_ends three_layouts "kitchen layout" false
                (PInt (-1)) (PStr "random layouts") "1" 1%Z)
      as (prompt & key & R & _ & _ & _ & A).
    + discriminate.
    + left. reflexivity.
    + assert (B : (0 <= 1 < len three_layouts)%Z) by (unfold len, three_layouts; simpl; lia).
      apply A in B. simpl in B. injection B as <-.
      exists prompt. exact R.
  - destruct (choose_option_ends three_layouts "kitchen layout" false
                (PInt (-1)) (PStr "random layouts") "5" 5%Z)
      as (prompt & key & R & _ & _ & A & _).
    + discriminate.
    + left. reflexivity.
    + assert (B : (len three_layouts - 1 <= 5)%Z) by (unfold len, three_layouts; simpl; lia).
      apply A in B. simpl in B. subst key.
      exists prompt. exact R.
Defined.

Lemma supplied_ids_pass_through_witness :
  makes (fst small_given_run) = [("PnPCounterToCab", PInt 2, PInt 1)]
  /\ prompts (fst small_given_run) = []
  /\ draws (fst small_given_run) = [].
Proof.
  apply (supplied_ids_pass_through small_styles "PnPCounterToCab" (PInt 2)
           (PInt 1) None None (fst small_given_run) (snd small_given_run));
    try reflexivity.
  exact (exec_runs _ _).
Defined.

Lemma prompts_for_missing_ids_witness :
  prompts (fst small_run)
  = ["Choose an option 0 to 9, or any other key for default (random layouts): "]
    ++ [].
Proof.
  apply (prompts_for_missing_ids small_styles "PnPCounterToCab" PNone (PInt 1)
           (Some "/tmp/kitchen.xml") None (fst small_run) (snd small_run)).
  exact (exec_runs _ _).
Defined.

Lemma chosen_layout_in_range_witness :
  exists k style',
    makes (fst small_run) = [("PnPCounterToCab", PInt k, style')]
    /\ (0 <= k <= 9)%Z.
Proof.
  apply (chosen_layout_in_range small_styles "PnPCounterToCab" PNone (PInt 1)
           (Some "/tmp/kitchen.xml") None (fst small_run) (snd small_run)).
  - left. reflexivity.
  - vm_compute. intros a z I.
    repeat match type of I with
           | _ \/ _ => destruct I as [I | I]
           end; try contradiction; try discriminate I.
    injection I as <- <-. do 2 right. left. reflexivity.
  - exact (exec_runs _ _).
Defined.

Lemma unknown_layout_fails_witness :
  exists style' x e,
    last (fst unknown_layout_run) (Input "", RStr (Ok ""))
    = (RobosuiteMake "PnPCounterToCab" (PInt 42) style', REnv x)
    /\ snd unknown_layout_run = Err e
    /\ (x = Err e \/ (e = KeyError /\ exists env, x = Ok env))
    /\ edits (fst unknown_layout_run) = []
    /\ writes (fst unknown_layout_run) = [].
Proof.
  apply (unknown_layout_fails small_styles "PnPCounterToCab" (PInt 42)
           (PInt 1) None None (fst unknown_layout_run)
           (snd unknown_layout_run)); try reflexivity.
  exact (exec_runs _ _).
Defined.

Lemma registry_mirrors_placements_witness :
  (forall cfg, In cfg twice_listed ->
     exists e,
       dict_get String.eqb
         [ ("obj_main",
            {| p_cat := "apple"; p_pos := "2.1 -0.3 0.95";
               p_quat := "0.7 0 0 0.7" |}) ]
         (String.append (cfg_name cfg) "_main") = Some e
       /\ dict_get String.eqb (object_placements small_env) (cfg_name cfg)
          = Some (p_pos e, p_quat e))
  /\ (forall key e,
        dict_get String.eqb
          [ ("obj_main",
             {| p_cat := "apple"; p_pos := "2.1 -0.3 0.95";
                p_quat := "0.7 0 0 0.7" |}) ] key = Some e ->
        exists cfg,
          In cfg twice_listed /\ key = String.append (cfg_name cfg) "_main"
          /\ p_cat e = cfg_cat cfg
          /\ dict_get String.eqb (object_placements small_env) (cfg_name cfg)
             = Some (p_pos e, p_quat e))
  /\ (List.length
        [ ("obj_main",
           {| p_cat := "apple"; p_pos := "2.1 -0.3 0.95";
              p_quat := "0.7 0 0 0.7" |}) ]
      <= List.length twice_listed)%nat.
Proof.
  apply (registry_mirrors_placements (object_placements small_env)
           twice_listed small_kitchen (fst twice_listed_run)
           (rewrite (named "body" "obj_main")
              (StretchUtils.set_pose "2.1 -0.3 0.95" "0.7 0 0 0.7")
              small_kitchen)).
  replay.
Defined.

Lemma placements_in_list_order_witness :
  exists n,
    (n <= List.length twice_listed)%nat
    /\ Forall2
         (fun cfg p =>
            exists pos quat,
              dict_get String.eqb (object_placements small_env) (cfg_name cfg)
              = Some (pos, quat)
              /\ p = ("body", String.append (cfg_name cfg) "_main", pos, quat))
         (firstn n twice_listed) (placings (fst twice_listed_run))
    /\ (forall a, snd twice_listed_run = Ok a ->
        n = List.length twice_listed).
Proof.
  apply (placements_in_list_order (object_placements small_env) twice_listed
           small_kitchen [] (fst twice_listed_run) (snd twice_listed_run)).
  exact (exec_runs _ _).
Defined.

Lemma captured_pose_needs_pos_and_quat_witness :
  snd bare_run = Err KeyError
  /\ spawn_poses (fst bare_run) = []
  /\ writes (fst bare_run) = []
  /\ exists names,
       edits (fst bare_run) = map (EPlace "body") names ++ cleanup_edits.
Proof.
  apply (captured_pose_needs_pos_and_quat small_styles "PnPCounterToCab"
           (PInt 2) (PInt 1) (Some "/tmp/kitchen.xml") (fst bare_run)
           (snd bare_run) bare_kitchen
           (Elem "mujoco" [] [Elem "worldbody" [] []]) []).
  - exact (exec_runs _ _).
  - vm_compute. do 8 right. left. reflexivity.
  - left. reflexivity.
Defined.

Lemma no_destination_no_write_witness :
  writes (fst small_given_run) = []
  /\ forall model xml info, snd small_given_run = Ok (model, xml, info) ->
       exists t0 xml1 path,
         fst small_given_run
         = t0
           ++ [ (InsertLineAfterMujocoTag xml1 (include_line path),
                 RDoc (Ok xml));
                (FromXmlString xml, RModel (Ok model)) ].
Proof.
  apply (no_destination_no_write small_styles "PnPCounterToCab" (PInt 2)
           (PInt 1) None (fst small_given_run) (snd small_given_run)).
  exact (exec_runs _ _).
Defined.

Lemma main_starts_simulator_last_witness :
  (Forall (fun ev => is_start ev = false) (fst small_main_run)
   /\ exists e, snd small_main_run = Err e)
  \/ exists tw model xml info instruction x,
       runs (model_generation_wizard small_styles "PnPCounterToCab" (PInt 2)
               (PInt 1) None (Some cli_spawn_pose)) tw (Ok (model, xml, info))
       /\ Forall (fun ev => is_start ev = false) tw
       /\ fst small_main_run
          = tw
            ++ [ (Input "Please enter your instruction or string: ",
                  RStr (Ok instruction));
                 (UntidyBot instruction model (scene_objects 0 info []),
                  RUnit x) ]
       /\ snd small_main_run = x.
Proof.
  apply (main_starts_simulator_last small_styles "PnPCounterToCab" (PInt 2)
           (PInt 1) None (fst small_main_run) (snd small_main_run)).
  exact (exec_runs _ _).
Defined.

(** The small styles, listed as 1, 0, 2, come out as 0, 1, 2. *)
Lemma styles_in_id_order_witness :
  dict_keys (styles small_styles) = [PInt 0; PInt 1; PInt 2]
  /\ Sorted Z.le (sorted (dict_keys small_styles))
  /\ Permutation (sorted (dict_keys small_styles)) (dict_keys small_styles)
  /\ List.length (styles small_styles) = List.length small_styles.
Proof.
  apply (styles_in_id_order small_styles).
  simpl. repeat constructor; simpl; intuition discriminate.
Defined.

(** The small styles come out as 0, 1, 2 with their names capitalized. *)
Example small_styles_sorted :
  styles small_styles
  = [ (PInt 0, PStr "Industrial"); (PInt 1, PStr "Scandanavian");
      (PInt 2, PStr "Coastal") ].
Proof.
  reflexivity.
Qed.
